(** * EmpathyAI: the understanding-and-response pipeline

    A shallow embedding of the Python sources

      - [src/emotion.py]            (emotion classifier)
      - [src/sentiment_fusion.py]   (sentiment fuser)
      - [src/llm_response.py]       (generation client)
      - [src/response_generator.py] (response synthesizer)
      - [src/memory.py]             (memory store and analytics)

    Python values are modelled as follows.

      - [str] is a list of Unicode code points, so that [len], slicing and
        the comparison operators count what Python counts.  Literals are
        written as UTF-8 text and decoded once by [u].
      - [float] is an exact rational ([Q]) kept in lowest terms; the binary
        rounding of IEEE doubles is not modelled.  Comparisons of float
        literals and a single [round] agree with the source; the last
        digits of a sum, a product or a quotient need not.
      - [None]-able arguments are [option]s, exceptions are an explicit
        [outcome], and calls that leave the process (the remote model, the
        classifier pipeline, [time.sleep], the logger) are recorded in a
        trace of events.
      - [random.choice] takes the drawn number as an argument. *)

From Stdlib Require Import ZArith NArith QArith Qround Lia Lqa Sorted.
From Stdlib Require Import Ascii String DecimalString.
From stdpp Require Import base list gmap.

Local Open Scope N_scope.

(** ** Python strings *)

Module PyStr.

Definition str := list N.

(** *** Literals: UTF-8 decoding of the source text *)

Fixpoint utf8_decode (bs : list N) : str :=
  match bs with
  | [] => []
  | b0 :: r0 =>
    if b0 <? 128 then b0 :: utf8_decode r0
    else if b0 <? 224 then
      match r0 with
      | b1 :: r1 => ((b0 - 192) * 64 + (b1 - 128)) :: utf8_decode r1
      | [] => [b0]
      end
    else if b0 <? 240 then
      match r0 with
      | b1 :: b2 :: r2 =>
          ((b0 - 224) * 4096 + (b1 - 128) * 64 + (b2 - 128)) :: utf8_decode r2
      | _ => [b0]
      end
    else
      match r0 with
      | b1 :: b2 :: b3 :: r3 =>
          ((b0 - 240) * 262144 + (b1 - 128) * 4096 + (b2 - 128) * 64 + (b3 - 128))
            :: utf8_decode r3
      | _ => [b0]
      end
  end.

Definition u (s : string) : str :=
  utf8_decode (map N_of_ascii (list_ascii_of_string s)).
Arguments u _%_string.

(** The double quote character, which the literals below splice in. *)
Definition dquote : str := [34].

(** *** [len(s)] *)
Definition len (s : str) : Z := Z.of_nat (length s).

(** *** [s.lower()]

    ASCII and Latin-1 capitals, the capitals OE and Y-diaeresis that occur
    in the program's literals, and the two code points outside ASCII whose
    lower case contains an ASCII letter (U+0130 and U+212A) are mapped as
    Python maps them.  Every other code point is kept: Python sends each of
    them to a single code point outside ASCII, so the length of the result
    and every search for an ASCII needle in it are as in Python. *)
Definition lower_cp (c : N) : list N :=
  if (65 <=? c) && (c <=? 90) then [c + 32]
  else if (192 <=? c) && (c <=? 222) && negb (c =? 215) then [c + 32]
  else if c =? 304 then [105; 775]
  else if c =? 338 then [339]
  else if c =? 376 then [255]
  else if c =? 8490 then [107]
  else [c].

Definition lower (s : str) : str := flat_map lower_cp s.

(** *** [s.strip()]: the code points for which [str.isspace] holds *)
Definition isspace (c : N) : bool :=
  ((9 <=? c) && (c <=? 13)) || ((28 <=? c) && (c <=? 32))
  || (c =? 133) || (c =? 160) || (c =? 5760)
  || ((8192 <=? c) && (c <=? 8202))
  || (c =? 8232) || (c =? 8233) || (c =? 8239) || (c =? 8287) || (c =? 12288).

Fixpoint lstrip (s : str) : str :=
  match s with
  | [] => []
  | c :: t => if isspace c then lstrip t else s
  end.

Definition rstrip (s : str) : str := rev (lstrip (rev s)).

Definition strip (s : str) : str := rstrip (lstrip s).

(** *** [needle in hay] *)
Fixpoint startswith (p s : str) : bool :=
  match p, s with
  | [], _ => true
  | _ :: _, [] => false
  | a :: p', b :: s' => (a =? b) && startswith p' s'
  end.

Fixpoint contains (needle hay : str) : bool :=
  startswith needle hay ||
  match hay with
  | [] => false
  | _ :: t => contains needle t
  end.

(** What [needle in hay] decides: the needle is a contiguous part. *)
Definition occurs_in (needle hay : str) : Prop :=
  exists before after, hay = before ++ needle ++ after.

(** [any(w in hay for w in words)] *)
Definition any_in (words : list str) (hay : str) : bool :=
  existsb (fun w => contains w hay) words.

(** *** [a == b], [a >= b] and [a > b] (code point order) *)
Fixpoint eqb (a b : str) : bool :=
  match a, b with
  | [], [] => true
  | x :: a', y :: b' => (x =? y) && eqb a' b'
  | _, _ => false
  end.

Fixpoint leb (a b : str) : bool :=
  match a, b with
  | [], _ => true
  | _ :: _, [] => false
  | x :: a', y :: b' => if x <? y then true else if y <? x then false else leb a' b'
  end.

Definition geb (a b : str) : bool := leb b a.

Definition gtb (a b : str) : bool := negb (leb a b).

(** *** [s.split(sep)] for a non-empty separator, and [sep.join(parts)]

    [skip] counts the code points of a separator found at an earlier
    position that are still to be passed over. *)
Fixpoint split_go (sep s cur : str) (skip : nat) : list str :=
  match s with
  | [] => [rev cur]
  | c :: t =>
    match skip with
    | S k => split_go sep t cur k
    | O =>
      if startswith sep s
      then rev cur :: split_go sep t [] (length sep - 1)
      else split_go sep t (c :: cur) 0
    end
  end.

Definition split (sep s : str) : list str := split_go sep s [] 0.

Fixpoint join (sep : str) (parts : list str) : str :=
  match parts with
  | [] => []
  | [p] => p
  | p :: rest => p ++ sep ++ join sep rest
  end.

(** [parts[-1]] of a non-empty list, with a default for the empty one. *)
Definition last_part (parts : list str) : str := List.last parts [].

(** *** [str(n)] for an integer *)
Definition of_Z (z : Z) : str := u (NilZero.string_of_int (Z.to_int z)).

End PyStr.

Import PyStr.

(** ** Python floats, exceptions, dictionaries and sorting *)

Module Py.

(** The result of a call that may raise. *)
Inductive outcome (A : Type) : Type :=
| Returned (a : A)
| Raised.
Arguments Returned {A} a.
Arguments Raised {A}.

(** *** Floats as rationals in lowest terms

    The operations are those of the rationals: which branch a comparison
    takes is as in the source for the literals the code compares, while
    the last digits of a computed value may differ from the double the
    source holds (0.7 + 0.1 is 0.7999999999999999 there). *)
Definition fadd (a b : Q) : Q := Qred (a + b).
Definition fsub (a b : Q) : Q := Qred (a - b).
Definition fmul (a b : Q) : Q := Qred (a * b).
Definition fdiv (a b : Q) : Q := Qred (a / b).
Definition of_int (z : Z) : Q := inject_Z z.

Definition fleb (a b : Q) : bool := Qle_bool a b.
Definition fltb (a b : Q) : bool := negb (Qle_bool b a).
Definition fgtb (a b : Q) : bool := fltb b a.
Definition fgeb (a b : Q) : bool := fleb b a.
Definition fmin (a b : Q) : Q := if fltb b a then b else a.

(** [x or 0.5]-style truth value of a float. *)
Definition is_zero (a : Q) : bool := (Qnum a =? 0)%Z.

(** [round(x, ndigits)]: to the nearest multiple of [10^-ndigits], ties to
    the even one. *)
Definition round_half_even (q : Q) : Z :=
  let f := Qfloor q in
  match Qcompare (q - inject_Z f) (1 # 2) with
  | Lt => f
  | Gt => (f + 1)%Z
  | Eq => if Z.even f then f else (f + 1)%Z
  end.

Definition round (q : Q) (ndigits : nat) : Q :=
  let scale := inject_Z (10 ^ Z.of_nat ndigits) in
  Qred (inject_Z (round_half_even (q * scale)) / scale).

(** *** A dictionary literal with [str] keys, in source order *)
Fixpoint dict_get {V : Type} (d : list (str * V)) (k : str) : option V :=
  match d with
  | [] => None
  | (k', v) :: rest => if PyStr.eqb k' k then Some v else dict_get rest k
  end.

(** *** [sorted(l, key=key, reverse=True)]

    Python's sort is stable also when reversed: elements with equal keys
    keep their order. [gt a b] is [a > b] on keys. *)
Fixpoint insert_desc {A K : Type} (gt : K -> K -> bool) (key : A -> K)
    (x : A) (l : list A) : list A :=
  match l with
  | [] => [x]
  | y :: t => if gt (key y) (key x) then y :: insert_desc gt key x t else x :: l
  end.

Definition sorted_desc {A K : Type} (gt : K -> K -> bool) (key : A -> K)
    (l : list A) : list A :=
  foldr (insert_desc gt key) [] l.

(** [s[-n:]] *)
Definition last_n {A : Type} (n : nat) (l : list A) : list A :=
  drop (length l - n) l.

(** [not s] for a string *)
Definition is_empty (s : str) : bool :=
  match s with [] => true | _ => false end.

End Py.

Import Py.

(** ** Emotion classifier ([src/emotion.py]) *)

Module Emotion.

Record scored : Type := { s_label : str; s_score : Q }.

Record EmotionResult : Type := {
  label : str;
  confidence : Q;
  all_scores : list scored
}.

(** The HuggingFace pipeline: one list of scored labels per input text, or
    an exception. *)
Definition pipeline_t : Type := str -> outcome (list (list scored)).

Definition _default_result : EmotionResult :=
  {| label := u "neutral";
     confidence := 1 # 2;
     all_scores := [ {| s_label := u "neutral"; s_score := 1 # 2 |} ] |}.

(** [EmotionDetector.detect_emotion]. The second component lists the texts
    handed to the pipeline, in order. *)
Definition detect_emotion (_pipeline : pipeline_t) (text : str) (min_length : Z)
    : EmotionResult * list str :=
  if is_empty text || (len (strip text) <? min_length)%Z then
    ({| label := u "neutral";
        confidence := 1 # 2;
        all_scores := [ {| s_label := u "neutral"; s_score := 1 # 2 |} ] |}, [])
  else
    let text := if (512 <? len text)%Z then take 512 text else text in
    match _pipeline text with
    | Raised => (_default_result, [text])
    | Returned results =>
      match results with
      | [] => (_default_result, [text])
      | first :: _ =>
        let sorted_results := sorted_desc fgtb s_score first in
        match sorted_results with
        | [] => (_default_result, [text])
        | top_result :: _ =>
          ({| label := s_label top_result;
              confidence := round (s_score top_result) 3;
              all_scores :=
                map (fun r => {| s_label := s_label r;
                                 s_score := round (s_score r) 3 |})
                    sorted_results |}, [text])
        end
      end
    end.

(** [detect_emotion(text)] at module level: [min_length] takes its default. *)
Definition detect (_pipeline : pipeline_t) (text : str) : EmotionResult * list str :=
  detect_emotion _pipeline text 5.

End Emotion.

(** ** Sentiment fuser ([src/sentiment_fusion.py]) *)

Module Fusion.

(** A scorer's result dictionary; either key may be missing. *)
Record sentiment : Type := {
  label : option str;
  confidence : option Q
}.

(** [SentimentFusion._combine_sentiments] *)
Definition _combine_sentiments (base nuanced : sentiment) : str :=
  let base_label := default (u "neutral") (label base) in
  let nuanced_label := default (u "neutral") (label nuanced) in
  let base_conf := default (1 # 2) (confidence base) in
  let nuanced_conf := default (1 # 2) (confidence nuanced) in
  if fgtb base_conf (4 # 5) then base_label
  else if fgtb nuanced_conf (4 # 5) then nuanced_label
  else if PyStr.eqb base_label nuanced_label then base_label
  else if fgeb base_conf nuanced_conf then base_label else nuanced_label.

(** One entry of what a sentiment pipeline hands back. *)
Record raw : Type := { raw_label : str; raw_score : Q }.

(** A sentiment pipeline, called as [model(text, truncation=True)]. *)
Definition model_t : Type := str -> outcome (list raw).

(** The two pipelines; either may have failed to load. *)
Record SentimentFusion : Type := {
  base_model : option model_t;
  nuanced_model : option model_t
}.

(** The pipelines a call invokes. *)
Inductive scorer : Type := Base | Nuanced.

Definition neutral_half : sentiment :=
  {| label := Some (u "neutral"); confidence := Some (1 # 2) |}.

(** [_get_base_sentiment]; the second component tells whether the base
    pipeline was invoked. *)
Definition _get_base_sentiment (self : SentimentFusion) (text : str)
    : sentiment * list scorer :=
  match base_model self with
  | Some m =>
    match m text with
    | Returned (result :: _) =>
      ({| label := Some (lower (raw_label result));
          confidence := Some (round (raw_score result) 3) |}, [Base])
    | _ => (neutral_half, [Base])
    end
  | None => (neutral_half, [])
  end.

Definition label_mapping : list (str * str) :=
  [ (u "LABEL_0", u "negative");
    (u "LABEL_1", u "neutral");
    (u "LABEL_2", u "positive") ].

(** [_get_nuanced_sentiment] *)
Definition _get_nuanced_sentiment (self : SentimentFusion) (text : str)
    : sentiment * list scorer :=
  match nuanced_model self with
  | Some m =>
    match m text with
    | Returned (result :: _) =>
      let mapped_label :=
        default (lower (raw_label result))
                (dict_get label_mapping (raw_label result)) in
      ({| label := Some mapped_label;
          confidence := Some (round (raw_score result) 3) |}, [Nuanced])
    | _ => (neutral_half, [Nuanced])
    end
  | None => (neutral_half, [])
  end.

Record analysis : Type := {
  base_sentiment : sentiment;
  nuanced_sentiment : sentiment;
  combined_label : str
}.

(** [_default_sentiment] *)
Definition _default_sentiment : analysis :=
  {| base_sentiment := neutral_half;
     nuanced_sentiment := neutral_half;
     combined_label := u "neutral" |}.

(** [analyze_sentiment]. The two scorers catch what their pipelines raise,
    so the [except] branch of this function is not taken. *)
Definition analyze_sentiment (self : SentimentFusion) (text : str)
    : analysis * list scorer :=
  if is_empty text || (len (strip text) <? 3)%Z then (_default_sentiment, [])
  else
    let text := if (512 <? len text)%Z then take 512 text else text in
    let base_result := _get_base_sentiment self text in
    let nuanced_result := _get_nuanced_sentiment self text in
    ({| base_sentiment := base_result.1;
        nuanced_sentiment := nuanced_result.1;
        combined_label := _combine_sentiments base_result.1 nuanced_result.1 |},
     base_result.2 ++ nuanced_result.2).

(** [fuse_sentiment_emotion] on the shared fusion instance.
    [analyze_sentiment] does not raise, so the [except] branch is not
    taken. *)
Definition fuse_sentiment_emotion (fusion : SentimentFusion) (text : str)
    (emotion_label : option str) : str :=
  let sentiment_result := (analyze_sentiment fusion text).1 in
  let base_sentiment := combined_label sentiment_result in
  match emotion_label with
  | Some ((_ :: _) as l) => base_sentiment ++ u "-" ++ l
  | _ => base_sentiment
  end.

End Fusion.

(** ** Generation client ([src/llm_response.py]) *)

Module Gemini.

(** What one call of [model.generate_content] does: it hands back a
    response whose text may be empty, hands back no usable response, or
    raises. *)
Inductive reply : Type :=
| Reply (text : str)
| NoReply
| ApiError.

(** The remote model, by prompt, temperature and the number of the attempt
    within the current call. *)
Definition backend : Type := str -> Q -> nat -> reply.

Record GeminiClient : Type := {
  model : option backend;
  last_request_time : Q;
  min_request_interval : Q
}.

(** What leaves the process during a call. *)
Inductive event : Type :=
| Sleep (seconds : Q)
| Remote (prompt : str) (temperature : Q)
| LogWarning (attempt_no : nat)
| LogError (attempt_no : nat).

Definition sadness_reply : str := Eval vm_compute in
  u "I understand you're going through a tough time. It's okay to feel sad sometimes - these feelings are valid and temporary. Would you like to talk more about what's bothering you? ðŸ’™".

Definition anger_reply : str := Eval vm_compute in
  u "It sounds like you're feeling frustrated right now. That's completely understandable. Take a deep breath with me. Sometimes talking through what's making us angry can help. I'm here to listen. ðŸ«‚".

Definition fear_reply : str := Eval vm_compute in
  u "I can sense you're feeling anxious. Anxiety can be overwhelming, but you're not alone in this. Try taking some slow, deep breaths. What's one thing that usually helps you feel calmer? ðŸŒ¸".

Definition joy_reply : str := Eval vm_compute in
  u "I'm so glad to hear you're feeling positive! It's wonderful when we experience joy. What's been the highlight of your day? I'd love to celebrate this moment with you! âœ¨".

Definition fatigue_reply : str := Eval vm_compute in
  u "You sound really tired right now. It's important to acknowledge when we need rest. Have you been taking care of yourself lately? Sometimes we need to slow down and recharge. ðŸŒ™".

Definition generic_reply : str := Eval vm_compute in
  u "Thank you for sharing with me. I'm here to listen and support you through whatever you're experiencing. Your feelings matter, and you're not alone. How can I help you today? ðŸ¤—".

Definition sadness_words : list str := [u "sad"; u "depressed"; u "down"; u "upset"].
Definition anger_words : list str := [u "angry"; u "frustrated"; u "mad"; u "annoyed"].
Definition fear_words : list str := [u "anxious"; u "worried"; u "nervous"; u "stressed"].
Definition joy_words : list str :=
  [u "happy"; u "excited"; u "joyful"; u "great"; u "wonderful"].
Definition fatigue_words : list str :=
  [u "tired"; u "exhausted"; u "drained"; u "overwhelmed"].

(** [GeminiClient._fallback_response] *)
Definition _fallback_response (prompt : str) : str :=
  let text_lower := lower prompt in
  if any_in sadness_words text_lower then sadness_reply
  else if any_in anger_words text_lower then anger_reply
  else if any_in fear_words text_lower then fear_reply
  else if any_in joy_words text_lower then joy_reply
  else if any_in fatigue_words text_lower then fatigue_reply
  else generic_reply.

(** [GeminiClient._enforce_rate_limit]. [now] is the reading of
    [time.time()] on entry; the clock moves on by the time slept. *)
Definition _enforce_rate_limit (c : GeminiClient) (now : Q)
    : GeminiClient * list event :=
  let time_since_last := fsub now (last_request_time c) in
  if fltb time_since_last (min_request_interval c) then
    let sleep_time := fsub (min_request_interval c) time_since_last in
    ({| model := model c;
        last_request_time := fadd now sleep_time;
        min_request_interval := min_request_interval c |}, [Sleep sleep_time])
  else
    ({| model := model c;
        last_request_time := now;
        min_request_interval := min_request_interval c |}, []).

(** The [for attempt in range(max_retries)] loop of [generate_response]:
    [todo] iterations are left and [attempt] is the loop variable.  The
    result is [Some text] when the loop returns from inside and [None] when
    it runs out. *)
Fixpoint attempt_loop (b : backend) (prompt : str) (temperature : Q)
    (max_retries : Z) (todo attempt : nat) : option str * list event :=
  match todo with
  | O => (None, [])
  | S todo' =>
    let rest := attempt_loop b prompt temperature max_retries todo' (S attempt) in
    match b prompt temperature attempt with
    | Reply text =>
      if negb (is_empty text) then (Some (strip text), [Remote prompt temperature])
      else (rest.1, Remote prompt temperature :: LogWarning (S attempt) :: rest.2)
    | NoReply =>
      (rest.1, Remote prompt temperature :: LogWarning (S attempt) :: rest.2)
    | ApiError =>
      (rest.1,
       Remote prompt temperature :: LogError (S attempt) ::
       (if (Z.of_nat attempt <? max_retries - 1)%Z
        then [Sleep (of_int (2 ^ Z.of_nat attempt))] else []) ++ rest.2)
    end
  end.

(** [GeminiClient.generate_response] *)
Definition generate_response (c : GeminiClient) (now : Q) (prompt : str)
    (max_retries : Z) (temperature : Q) : str * GeminiClient * list event :=
  match model c with
  | None => (_fallback_response prompt, c, [])
  | Some b =>
    let gate := _enforce_rate_limit c now in
    let run := attempt_loop b prompt temperature max_retries (Z.to_nat max_retries) 0 in
    (match run.1 with
     | Some text => text
     | None => _fallback_response prompt
     end, gate.1, gate.2 ++ run.2)
  end.

(** [ask_gemini]: the shared client, three attempts. *)
Definition ask_gemini (c : GeminiClient) (now : Q) (prompt : str) (temperature : Q)
    : str * GeminiClient * list event :=
  generate_response c now prompt 3 temperature.

Record health : Type := { available : bool; reason : str }.

(** [check_api_health], together with the probe's response. The
    [except] branch guards [generate_response], which does not raise. *)
Definition check_api_health (c : GeminiClient) (now : Q)
    : health * option str * list event :=
  match model c with
  | None =>
    ({| available := false; reason := u "Client not initialized" |}, None, [])
  | Some _ =>
    let call := generate_response c now (u "Hello") 1 (7 # 10) in
    let test_response := call.1.1 in
    let is_working :=
      (0 <? len test_response)%Z
      && negb (contains (u "fallback") (lower test_response)) in
    ({| available := is_working;
        reason := if is_working then u "API working"
                  else u "API not responding properly" |},
     Some test_response, call.2)
  end.

End Gemini.

(** ** Response synthesizer ([src/response_generator.py]) *)

Module Synth.

(** *** [_load_system_prompts] *)

Definition prompt_default : str := Eval vm_compute in
  u "You are EmpathyAI, a compassionate mental health companion. 
                         Respond with warmth, understanding, and genuine care. 
                         Keep responses under 120 words. Be supportive but not clinical.
                         Use gentle, encouraging language. Acknowledge emotions: {emotion}.".

Definition prompt_sadness : str := Eval vm_compute in
  u "You are EmpathyAI, speaking to someone feeling sad or down.
                         Show deep empathy and validation. Offer gentle comfort and hope.
                         Remind them that sadness is temporary and they're not alone.
                         Keep under 120 words. Emotion context: {emotion}.".

Definition prompt_anger : str := Eval vm_compute in
  u "You are EmpathyAI, helping someone process anger or frustration.
                        Validate their feelings without encouraging harmful actions.
                        Help them find healthy ways to express and process anger.
                        Stay calm and grounding. Keep under 120 words. Emotion: {emotion}.".

Definition prompt_fear : str := Eval vm_compute in
  u "You are EmpathyAI, supporting someone experiencing fear or anxiety.
                       Offer reassurance and practical coping strategies.
                       Help them feel safe and grounded in the present moment.
                       Use calming, confident language. Under 120 words. Emotion: {emotion}.".

Definition prompt_joy : str := Eval vm_compute in
  u "You are EmpathyAI, celebrating positive emotions with someone.
                      Share in their happiness and help them savor the moment.
                      Encourage them to appreciate and remember this feeling.
                      Be warm and uplifting. Keep under 120 words. Emotion: {emotion}.".

Definition system_prompts : list (str * str) :=
  [ (u "default", prompt_default);
    (u "sadness", prompt_sadness);
    (u "anger", prompt_anger);
    (u "fear", prompt_fear);
    (u "joy", prompt_joy) ].

(** *** [_load_response_templates] *)

Definition templates_sadness : list str := Eval vm_compute in
  [ u "I can hear the sadness in your words, and I want you to know that it's okay to feel this way. Your emotions are valid, and you don't have to go through this alone. 💙";
    u "It sounds like you're carrying some heavy feelings right now. Remember that sadness, while painful, is also a sign of your capacity to care deeply. I'm here with you. 🫂";
    u "I see you're going through a difficult time. Please be gentle with yourself. These feelings won't last forever, even though they feel overwhelming right now. 🌸" ].

Definition templates_anger : list str := Eval vm_compute in
  [ u "I can sense your frustration, and those feelings are completely valid. It's human to feel angry sometimes. Let's take a moment to breathe together. 🌱";
    u "Your anger is telling you something important about what matters to you. Let's explore what's underneath these feelings in a safe way. 💚";
    u "I hear how upset you are. It takes courage to express difficult emotions. You're doing the right thing by talking about it instead of keeping it inside. 🤗" ].

Definition templates_fear : list str := Eval vm_compute in
  [ u "I can feel your worry, and I want you to know that you're safe here with me. Fear can be overwhelming, but you're braver than you think. 🦋";
    u "Anxiety can make everything feel uncertain, but remember: you've faced difficult moments before and you're still here. That's strength. 🌟";
    u "Your fears are real and valid. Let's take this one breath at a time. You don't have to face this alone. I'm right here with you. 🫧" ].

Definition templates_joy : list str := Eval vm_compute in
  [ u "I can feel your happiness radiating through your words! It's wonderful to witness your joy. Please take a moment to really savor this feeling. ✨";
    u "Your positive energy is infectious! I'm so glad you're experiencing this happiness. You deserve these beautiful moments. 🌻";
    u "What a delightful thing to hear! Your joy reminds me of all the good that exists in the world. Thank you for sharing this brightness. ☀️" ].

Definition templates_neutral : list str := Eval vm_compute in
  [ u "I'm here and I'm listening. Whatever you're going through, you don't have to face it alone. Your feelings matter. 🤗";
    u "Thank you for trusting me with your thoughts. I'm honored to be part of your journey, whatever it may bring. 💜";
    u "I hear you, and I'm with you in this moment. Sometimes just being acknowledged is enough. How are you really doing? 🌙" ].

Definition response_templates : list (str * list str) :=
  [ (u "sadness", templates_sadness);
    (u "anger", templates_anger);
    (u "fear", templates_fear);
    (u "joy", templates_joy);
    (u "neutral", templates_neutral) ].

(** An entry of the conversation history: a dictionary whose ['user'] and
    ['ai'] keys may be missing, or a value that is not a dictionary. *)
Inductive history_item : Type :=
| HDict (user ai : option str)
| HOther.

Record result : Type := {
  response : str;
  emotion_detected : str;
  primary_emotion : str;
  generation_method : str;
  confidence : Q
}.

Definition emotion_mapping : list (str * str) :=
  [ (u "sadness", u "sadness");
    (u "anger", u "anger");
    (u "fear", u "fear");
    (u "anxiety", u "fear");
    (u "joy", u "joy");
    (u "happiness", u "joy");
    (u "surprise", u "neutral");
    (u "disgust", u "anger");
    (u "love", u "joy");
    (u "optimism", u "joy");
    (u "pessimism", u "sadness") ].

(** [_extract_primary_emotion] *)
Definition _extract_primary_emotion (fused_emotion : str) : str :=
  if is_empty fused_emotion then u "neutral"
  else
    let parts := split (u "-") (lower fused_emotion) in
    let emotion :=
      if (1 <? length parts)%nat then last_part parts else List.hd [] parts in
    default (u "neutral") (dict_get emotion_mapping emotion).

(** [system_prompt.format(emotion=...)]: the templates hold the one
    replacement field [{emotion}] and no other brace. *)
Definition format_emotion (template emotion : str) : str :=
  join emotion (split (u "{emotion}") template).

(** The lines added for [enumerate(recent_history, i)]. *)
Fixpoint history_lines (i : nat) (items : list history_item) : str :=
  match items with
  | [] => []
  | item :: rest =>
    match item with
    | HDict user ai =>
      of_Z (Z.of_nat i) ++ u ". User: " ++ default [] user ++ u ", AI: "
        ++ default [] ai ++ u "
"
    | HOther => []
    end ++ history_lines (S i) rest
  end.

(** [_build_prompt] *)
Definition _build_prompt (user_text fused_emotion primary_emotion : str)
    (history : option (list history_item)) : str :=
  let system_prompt :=
    default prompt_default (dict_get system_prompts primary_emotion) in
  let system_prompt := format_emotion system_prompt fused_emotion in
  let history_context :=
    match history with
    | Some ((_ :: _) as h) =>
      u "

Recent conversation context:
" ++ history_lines 1 (last_n 3 h)
    | _ => []
    end in
  system_prompt ++ u "

" ++ history_context ++ u "

Current user message: " ++ dquote ++ user_text ++ dquote ++ u "

Please respond with empathy, understanding, and genuine care. Focus on:
1. Acknowledging their emotional state (" ++ fused_emotion ++ u ")
2. Providing appropriate support and validation
3. Being warm but not overly clinical
4. Keeping response under 120 words

Response:".

(** [_get_template_response]; [rnd] is the number [random.choice] draws. *)
Definition _get_template_response (rnd : nat) (emotion user_text : str) : str :=
  let templates :=
    default templates_neutral (dict_get response_templates emotion) in
  List.nth (rnd mod length templates) templates [].

Definition inappropriate_phrases : list str :=
  [ u "i'm just an ai"; u "i'm not a therapist";
    u "seek professional help immediately";
    u "i can't help with that"; u "that's not my job" ].

(** [_validate_and_enhance_response] *)
Definition _validate_and_enhance_response (rnd : nat)
    (response emotion user_text : str) : str :=
  if is_empty response || (len (strip response) <? 10)%Z then
    _get_template_response rnd emotion user_text
  else
    let response_lower := lower response in
    if any_in inappropriate_phrases response_lower then
      _get_template_response rnd emotion user_text
    else
      let response :=
        if (200 <? len response)%Z then
          let sentences := split (u ". ") response in
          join (u ". ") (take 2 sentences) ++ u "."
        else response in
      strip response.

Definition emotion_keywords : list (str * list str) :=
  [ (u "sadness", [u "sad"; u "difficult"; u "understand"; u "support"; u "comfort"]);
    (u "anger", [u "frustrated"; u "angry"; u "valid"; u "breath"; u "calm"]);
    (u "fear", [u "anxiety"; u "worry"; u "safe"; u "brave"; u "strength"]);
    (u "joy", [u "happy"; u "wonderful"; u "celebrate"; u "joy"; u "bright"]) ].

(** [_calculate_response_confidence].  Which of the two bonuses are added
    is as in the source; the sum itself is taken over the rationals. *)
Definition _calculate_response_confidence (response emotion : str) : Q :=
  let base_confidence := 7 # 10 in
  let base_confidence :=
    if (50 <? len response)%Z then fadd base_confidence (1 # 10)
    else base_confidence in
  let keywords := default [] (dict_get emotion_keywords emotion) in
  let base_confidence :=
    if negb (bool_decide (keywords = [])) && any_in keywords (lower response)
    then fadd base_confidence (1 # 10) else base_confidence in
  fmin base_confidence 1.

(** [_fallback_response] *)
Definition _fallback_response (rnd : nat) (user_text emotion : str) : result :=
  let primary_emotion := _extract_primary_emotion emotion in
  let response := _get_template_response rnd primary_emotion user_text in
  {| response := response;
     emotion_detected := emotion;
     primary_emotion := primary_emotion;
     generation_method := u "fallback_template";
     confidence := 1 # 2 |}.

(** [EmpathyResponseGenerator.generate_response]. [ask_gemini] is the
    generation call of this turn, which returns a text or raises. *)
Definition generate_response (ask_gemini : str -> Q -> outcome str) (rnd : nat)
    (user_text fused_emotion : str) (user_history : option (list history_item))
    : result :=
  let primary_emotion := _extract_primary_emotion fused_emotion in
  let prompt := _build_prompt user_text fused_emotion primary_emotion user_history in
  match ask_gemini prompt (7 # 10) with
  | Raised => _fallback_response rnd user_text fused_emotion
  | Returned llm_response =>
    let final_response :=
      _validate_and_enhance_response rnd llm_response primary_emotion user_text in
    {| response := final_response;
       emotion_detected := fused_emotion;
       primary_emotion := primary_emotion;
       generation_method :=
         if negb (contains (u "fallback") (lower llm_response))
         then u "llm" else u "template";
       confidence := _calculate_response_confidence final_response fused_emotion |}
  end.

(** The synthesizer wired to the generation client, as [ask_gemini] is in
    the program. *)
Definition generate_with_client (c : Gemini.GeminiClient) (now : Q) (rnd : nat)
    (user_text fused_emotion : str) (user_history : option (list history_item))
    : result :=
  generate_response
    (fun prompt temperature =>
       Returned (Gemini.ask_gemini c now prompt temperature).1.1)
    rnd user_text fused_emotion user_history.

(** [craft_empathy_response]: the response text of the shared generator. *)
Definition craft_empathy_response (c : Gemini.GeminiClient) (now : Q) (rnd : nat)
    (user_text fused_emotion : str) (history : option (list history_item)) : str :=
  response (generate_with_client c now rnd user_text fused_emotion history).

End Synth.

(** ** Memory store ([src/memory.py]) *)

Module Memory.

(** A row of the [emotions] table, and of the [emotions] worksheet. The
    text columns other than the label may hold NULL. *)
Record row : Type := {
  user_id : str;
  timestamp : str;
  emotion_label : str;
  confidence : Q;
  message_text : option str;
  response_text : option str;
  session_id : option str
}.

(** Both backends are shared by all managers of the process: the database
    file and the worksheet, each in insertion order.  Writing to a backend
    may fail, which the [ok] argument of the functions below decides;
    reading does not fail here, so the [except] branches of the readers,
    which hand out an empty result, are not taken. *)
Record store : Type := {
  sqlite_rows : list row;
  sheet_rows : list row
}.

Record MemoryManager : Type := {
  self_user_id : str;
  use_sheets : bool
}.

(** [datetime.datetime.utcnow()] as the program reads it: in ISO format,
    and in ISO format after [timedelta(days=days)] is taken off. *)
Record clock : Type := {
  utcnow_isoformat : str;
  days_ago_isoformat : Z -> str
}.

(** The dictionaries handed out by the store. *)
Record emotion_record : Type := {
  r_timestamp : str;
  r_emotion : str;
  r_confidence : Q;
  r_message : str;
  r_session_id : str
}.

(** [confidence or 0.5] *)
Definition or_half (confidence : option Q) : Q :=
  match confidence with
  | Some c => if is_zero c then 1 # 2 else c
  | None => 1 # 2
  end.

(** [x or ""] *)
Definition or_empty (x : option str) : str := default [] x.

(** [_add_to_sheets]; [ok] tells whether [append_row] goes through. *)
Definition _add_to_sheets (self : MemoryManager) (ok : bool) (timestamp emotion : str)
    (confidence : option Q) (message response session_id : option str)
    (s : store) : bool * store :=
  let new_row :=
    {| timestamp := timestamp;
       user_id := self_user_id self;
       emotion_label := emotion;
       confidence := or_half confidence;
       message_text := Some (or_empty message);
       response_text := Some (or_empty response);
       session_id := Some (or_empty session_id) |} in
  if ok then
    (true, {| sqlite_rows := sqlite_rows s; sheet_rows := sheet_rows s ++ [new_row] |})
  else (false, s).

(** [_add_to_sqlite]; [ok] tells whether the INSERT and the commit both go
    through.  A commit that fails after the INSERT went through, which
    leaves the row pending in the connection, is not modelled: a store
    after a call that returned [False] is only known to extend the one
    before. *)
Definition _add_to_sqlite (self : MemoryManager) (ok : bool) (timestamp emotion : str)
    (confidence : option Q) (message response session_id : option str)
    (s : store) : bool * store :=
  let new_row :=
    {| user_id := self_user_id self;
       timestamp := timestamp;
       emotion_label := emotion;
       confidence := or_half confidence;
       message_text := message;
       response_text := response;
       session_id := session_id |} in
  if ok then
    (true, {| sqlite_rows := sqlite_rows s ++ [new_row]; sheet_rows := sheet_rows s |})
  else (false, s).

(** [add_emotion_record] *)
Definition add_emotion_record (self : MemoryManager) (clk : clock) (ok : bool)
    (emotion_label : str) (confidence : option Q)
    (message response session_id : option str) (s : store) : bool * store :=
  let timestamp := utcnow_isoformat clk in
  if use_sheets self then
    _add_to_sheets self ok timestamp emotion_label confidence message response session_id s
  else
    _add_to_sqlite self ok timestamp emotion_label confidence message response session_id s.

(** [_get_from_sheets], for a limit that is not negative.  The cells are
    read back as the text that was written, which is what the worksheet
    client hands out for text that does not read as a number; a user id
    or a message made of digits comes back as a number in the source and
    is outside this model. *)
Definition _get_from_sheets (self : MemoryManager) (limit : nat) (s : store)
    : list emotion_record :=
  let all_records := sheet_rows s in
  let user_records :=
    filter (fun r => user_id r = self_user_id self) all_records in
  let sorted_records := take limit (sorted_desc PyStr.gtb timestamp user_records) in
  map (fun r => {| r_timestamp := timestamp r;
                   r_emotion := emotion_label r;
                   r_confidence := confidence r;
                   r_message := or_empty (message_text r);
                   r_session_id := or_empty (session_id r) |})
      sorted_records.

(** [_get_from_sqlite], for a limit that is not negative: the rows of
    [WHERE user_id = ? ORDER BY timestamp DESC LIMIT ?], rows of one
    timestamp in insertion order. *)
Definition _get_from_sqlite (self : MemoryManager) (limit : nat) (s : store)
    : list emotion_record :=
  let selected :=
    take limit
      (sorted_desc PyStr.gtb timestamp
         (filter (fun r => user_id r = self_user_id self) (sqlite_rows s))) in
  map (fun r => {| r_timestamp := timestamp r;
                   r_emotion := emotion_label r;
                   r_confidence := confidence r;
                   r_message := or_empty (message_text r);
                   r_session_id := or_empty (session_id r) |})
      selected.

(** [get_recent_emotions] *)
Definition get_recent_emotions (self : MemoryManager) (limit : nat) (s : store)
    : list emotion_record :=
  if use_sheets self then _get_from_sheets self limit s
  else _get_from_sqlite self limit s.

Record tally : Type := { count : nat; total_confidence : Q }.

Record pattern : Type := {
  frequency : nat;
  percentage : Q;
  avg_confidence : Q
}.

(** The dictionary [get_emotion_patterns] returns; two of its keys are
    present only when the window holds a record. *)
Record PatternSummary : Type := {
  total_entries : nat;
  overall_avg_confidence : option Q;
  patterns : gmap str pattern;
  time_period : option str
}.

Definition empty_summary : PatternSummary :=
  {| total_entries := 0;
     overall_avg_confidence := None;
     patterns := ∅;
     time_period := None |}.

(** One turn of the [for record in recent_records] loop, on
    [(emotion_counts, total_confidence)]. *)
Definition count_record (acc : gmap str tally * Q) (record : emotion_record)
    : gmap str tally * Q :=
  let emotion := r_emotion record in
  let confidence := r_confidence record in
  let emotion_counts :=
    match acc.1 !! emotion with
    | None => <[emotion := {| count := 0; total_confidence := 0 |}]> acc.1
    | Some _ => acc.1
    end in
  let data :=
    default {| count := 0; total_confidence := 0 |} (emotion_counts !! emotion) in
  (<[emotion := {| count := S (count data);
                   total_confidence := fadd (total_confidence data) confidence |}]>
     emotion_counts,
   fadd acc.2 confidence).

(** The part of [get_emotion_patterns] after the records are read.  The
    counts ([total_entries], [frequency]) and the labels are as in the
    source; the percentages and the averages are computed over the
    rationals. *)
Definition analyse (days : Z) (recent_records : list emotion_record)
    : PatternSummary :=
  match recent_records with
  | [] => empty_summary
  | _ :: _ =>
    let n := of_int (Z.of_nat (length recent_records)) in
    let acc := foldl count_record (∅, 0%Q) recent_records in
    {| total_entries := length recent_records;
       overall_avg_confidence := Some (round (fdiv acc.2 n) 2);
       patterns :=
         (fun data =>
            {| frequency := count data;
               percentage :=
                 round (fmul (fdiv (of_int (Z.of_nat (count data))) n) 100) 1;
               avg_confidence :=
                 round (fdiv (total_confidence data)
                             (of_int (Z.of_nat (count data)))) 2 |})
         <$> acc.1;
       time_period := Some (of_Z days ++ u " days") |}
  end.

(** The records [get_emotion_patterns] analyses. The SQLite query hands
    out the label, the confidence and the timestamp only. *)
Definition recent_records (self : MemoryManager) (cutoff_date : str) (s : store)
    : list emotion_record :=
  if use_sheets self then
    let records := _get_from_sheets self 1000 s in
    filter (fun r => PyStr.geb (r_timestamp r) cutoff_date = true) records
  else
    map (fun r => {| r_emotion := emotion_label r;
                     r_confidence := confidence r;
                     r_timestamp := timestamp r;
                     r_message := [];
                     r_session_id := [] |})
        (sorted_desc PyStr.gtb timestamp
           (filter (fun r => user_id r = self_user_id self
                             ∧ PyStr.geb (timestamp r) cutoff_date = true)
                   (sqlite_rows s))).

(** [get_emotion_patterns] *)
Definition get_emotion_patterns (self : MemoryManager) (clk : clock) (days : Z)
    (s : store) : PatternSummary :=
  let cutoff_date := days_ago_isoformat clk days in
  analyse days (recent_records self cutoff_date s).

End Memory.

(** ** The specification's wording, to be compared with the code *)

Module Spec.

(** The combination rule of the sentiment fuser, in its priority order. *)
Inductive priority_choice (base_label : str) (base_conf : Q)
    (nuanced_label : str) (nuanced_conf : Q) : str -> Prop :=
| base_confident :
    (4 # 5 < base_conf)%Q ->
    priority_choice base_label base_conf nuanced_label nuanced_conf base_label
| nuanced_confident :
    ~ (4 # 5 < base_conf)%Q -> (4 # 5 < nuanced_conf)%Q ->
    priority_choice base_label base_conf nuanced_label nuanced_conf nuanced_label
| labels_agree :
    ~ (4 # 5 < base_conf)%Q -> ~ (4 # 5 < nuanced_conf)%Q ->
    base_label = nuanced_label ->
    priority_choice base_label base_conf nuanced_label nuanced_conf base_label
| nuanced_higher :
    ~ (4 # 5 < base_conf)%Q -> ~ (4 # 5 < nuanced_conf)%Q ->
    base_label <> nuanced_label -> (base_conf < nuanced_conf)%Q ->
    priority_choice base_label base_conf nuanced_label nuanced_conf nuanced_label
| base_higher_or_tie :
    ~ (4 # 5 < base_conf)%Q -> ~ (4 # 5 < nuanced_conf)%Q ->
    base_label <> nuanced_label -> (nuanced_conf <= base_conf)%Q ->
    priority_choice base_label base_conf nuanced_label nuanced_conf base_label.

(** The five keyword sets of the fallback policy with their canned
    messages, in priority order. *)
Definition fallback_categories : list (list str * str) :=
  [ (Gemini.sadness_words, Gemini.sadness_reply);
    (Gemini.anger_words, Gemini.anger_reply);
    (Gemini.fear_words, Gemini.fear_reply);
    (Gemini.joy_words, Gemini.joy_reply);
    (Gemini.fatigue_words, Gemini.fatigue_reply) ].

(** A keyword occurs in the prompt, letter case aside. *)
Definition occurs_ignoring_case (word prompt : str) : bool :=
  contains (lower word) (lower prompt).

(** The message of the first category one of whose keywords occurs in the
    prompt, and the generic message when there is none. *)
Definition keyword_matched_reply (prompt : str) : str :=
  match
    List.find (fun cat => existsb (fun w => occurs_ignoring_case w prompt) cat.1)
              fallback_categories
  with
  | Some cat => cat.2
  | None => Gemini.generic_reply
  end.

(** An attempt that yields an empty result or a raised error. *)
Definition failed (r : Gemini.reply) : bool :=
  match r with
  | Gemini.Reply text => is_empty text
  | Gemini.NoReply => true
  | Gemini.ApiError => true
  end.

Definition raised (r : Gemini.reply) : bool :=
  match r with
  | Gemini.ApiError => true
  | _ => false
  end.

(** Exponential backoff after every failed attempt but the last: the wait
    of [2^attempt] seconds is among the events of the call. *)
Definition waits_after_every_failed_attempt (b : Gemini.backend) (prompt : str)
    (temperature : Q) (max_retries : Z) : Prop :=
  forall attempt : nat,
    (Z.of_nat attempt < max_retries - 1)%Z ->
    (forall i : nat, (i <= attempt)%nat -> failed (b prompt temperature i) = true) ->
    Gemini.Sleep (of_int (2 ^ Z.of_nat attempt))
      ∈ (Gemini.attempt_loop b prompt temperature max_retries
           (Z.to_nat max_retries) 0).2.

(** What a failed attempt leaves in the trace: the remote call, the log
    entry, and the backoff wait after an attempt that raised and was not
    the last. *)
Definition failed_attempt_events (b : Gemini.backend) (prompt : str)
    (temperature : Q) (max_retries : Z) (attempt : nat) : list Gemini.event :=
  Gemini.Remote prompt temperature ::
  (if raised (b prompt temperature attempt)
   then Gemini.LogError (S attempt) else Gemini.LogWarning (S attempt)) ::
  (if raised (b prompt temperature attempt)
      && (Z.of_nat attempt <? max_retries - 1)%Z
   then [Gemini.Sleep (of_int (2 ^ Z.of_nat attempt))] else []).

(** The rows of one user, in both backends. *)
Definition own_rows (user : str) (s : Memory.store) : Memory.store :=
  {| Memory.sqlite_rows :=
       filter (fun r => Memory.user_id r = user) (Memory.sqlite_rows s);
     Memory.sheet_rows :=
       filter (fun r => Memory.user_id r = user) (Memory.sheet_rows s) |}.

(** The rows of the backend a manager is configured for. *)
Definition backend_rows (self : Memory.MemoryManager) (s : Memory.store)
    : list Memory.row :=
  if Memory.use_sheets self then Memory.sheet_rows s else Memory.sqlite_rows s.

(** A record of the manager's user with timestamp at or after the cutoff. *)
Definition in_window (self : Memory.MemoryManager) (cutoff : str)
    (r : Memory.row) : Prop :=
  Memory.user_id r = Memory.self_user_id self
  /\ PyStr.geb (Memory.timestamp r) cutoff = true.

(** The rows the analysis looks at, most recent first. The worksheet is
    read through [_get_from_sheets] with a limit of 1000 rows. *)
Definition considered (self : Memory.MemoryManager) (cutoff : str)
    (s : Memory.store) : list Memory.row :=
  if Memory.use_sheets self then
    filter (fun r => PyStr.geb (Memory.timestamp r) cutoff = true)
           (take 1000
              (sorted_desc PyStr.gtb Memory.timestamp
                 (filter (fun r => Memory.user_id r = Memory.self_user_id self)
                         (Memory.sheet_rows s))))
  else
    sorted_desc PyStr.gtb Memory.timestamp
      (filter (in_window self cutoff) (Memory.sqlite_rows s)).

(** The stores that [add_emotion_record] builds from the empty one. *)
Inductive reachable : Memory.store -> Prop :=
| reachable_empty :
    reachable {| Memory.sqlite_rows := []; Memory.sheet_rows := [] |}
| reachable_add self clk ok emotion_label confidence message response session_id s :
    reachable s ->
    reachable
      (Memory.add_emotion_record self clk ok emotion_label confidence
                                 message response session_id s).2.

(** The number of calls of the remote model in a trace, and the seconds
    slept in it. *)
Definition remote_calls (events : list Gemini.event) : nat :=
  foldr (fun e acc => match e with Gemini.Remote _ _ => S acc | _ => acc end)
        0%nat events.

Definition seconds_slept (events : list Gemini.event) : Q :=
  foldr (fun e acc => match e with Gemini.Sleep d => (d + acc)%Q | _ => acc end)
        0%Q events.

(** A list is in descending order of its keys, [gt] being [>] on keys. *)
Definition descending {A K : Type} (gt : K -> K -> bool) (key : A -> K)
    (l : list A) : Prop :=
  StronglySorted (fun x y => gt (key y) (key x) = false) l.

(** The five buckets of the primary emotion. *)
Definition primary_emotions : list str :=
  [u "sadness"; u "anger"; u "fear"; u "joy"; u "neutral"].

(** A sentiment pipeline that is not loaded, raises, or hands back no
    result for a text. *)
Definition no_score (m : option Fusion.model_t) (text : str) : Prop :=
  match m with
  | None => True
  | Some f => f text = Raised \/ f text = Returned []
  end.

End Spec.

(** * Properties *)

(** ** Strings and numbers *)

Example u_decodes_code_points : u "a💙" = [97; 128153].
Proof. reflexivity. Qed.

Example lower_ascii : lower (u "I'm SAD") = u "i'm sad".
Proof. reflexivity. Qed.

Example lower_kelvin_sign : lower [8490] = u "k".
Proof. reflexivity. Qed.

Example split_sentences :
  split (u ". ") (u "a. b. c") = [u "a"; u "b"; u "c"].
Proof. reflexivity. Qed.

Example split_does_not_overlap : split (u "aa") (u "aaa") = [u ""; u "a"].
Proof. reflexivity. Qed.

Example strip_both_ends : strip (u "  hi there
") = u "hi there".
Proof. reflexivity. Qed.

Example timestamps_compare_as_text :
  PyStr.geb (u "2024-05-01T08:00:00.000001") (u "2024-05-01T08:00:00") = true
  /\ PyStr.geb (u "2024-04-30T23:59:59") (u "2024-05-01T08:00:00") = false.
Proof. split; reflexivity. Qed.

Example round_half_to_even : round (1 # 8) 2 = 3 # 25 /\ round (3 # 8) 2 = 19 # 50.
Proof. split; reflexivity. Qed.

Lemma eqb_eq (a b : str) : PyStr.eqb a b = true <-> a = b.
Proof.
  revert b; induction a as [|x a IH]; intros [|y b]; simpl; try (split; congruence).
  rewrite andb_true_iff, N.eqb_eq, IH. split.
  - intros [-> ->]; reflexivity.
  - intros [= -> ->]; split; reflexivity.
Qed.

Lemma eqb_neq (a b : str) : PyStr.eqb a b = false <-> a <> b.
Proof.
  rewrite <- eqb_eq. destruct (PyStr.eqb a b); split; congruence.
Qed.

Lemma fgtb_lt (a b : Q) : fgtb a b = true <-> (b < a)%Q.
Proof.
  unfold fgtb, fltb. rewrite negb_true_iff. split.
  - intros H. apply Qnot_le_lt. intros Hle.
    apply Qle_bool_iff in Hle. congruence.
  - intros H. destruct (Qle_bool a b) eqn:E; [|reflexivity].
    apply Qle_bool_iff in E. exfalso. exact (Qlt_not_le _ _ H E).
Qed.

Lemma fgtb_not_lt (a b : Q) : fgtb a b = false <-> ~ (b < a)%Q.
Proof.
  rewrite <- fgtb_lt. destruct (fgtb a b); split; congruence.
Qed.

Lemma fgeb_le (a b : Q) : fgeb a b = true <-> (b <= a)%Q.
Proof. unfold fgeb, fleb. apply Qle_bool_iff. Qed.

Lemma fgeb_not_le (a b : Q) : fgeb a b = false <-> (a < b)%Q.
Proof.
  split.
  - intros H. apply Qnot_le_lt. intros Hle. apply fgeb_le in Hle. congruence.
  - intros H. destruct (fgeb a b) eqn:E; [|reflexivity].
    apply fgeb_le in E. exfalso. exact (Qlt_not_le _ _ H E).
Qed.

(** ** Emotion classifier *)

(** C5. For a text that is empty or whose trimmed length is below
    [min_length], [detect_emotion] returns the neutral result (label
    "neutral", confidence 0.5, the single score ("neutral", 0.5)) and hands
    no text to the classification pipeline; with the default threshold this
    holds below 5 characters. *)
Theorem detect_emotion_short_text_neutral
    (pipeline : Emotion.pipeline_t) (text : str) (min_length : Z) :
  text = [] \/ (len (strip text) < min_length)%Z ->
  Emotion.detect_emotion pipeline text min_length =
    ({| Emotion.label := u "neutral";
        Emotion.confidence := 1 # 2;
        Emotion.all_scores :=
          [ {| Emotion.s_label := u "neutral"; Emotion.s_score := 1 # 2 |} ] |},
     [])
  /\ (min_length = 5%Z ->
      Emotion.detect pipeline text = Emotion.detect_emotion pipeline text min_length).
Proof.
  intros H. split.
  - unfold Emotion.detect_emotion.
    destruct H as [-> | H]; [reflexivity|].
    apply Z.ltb_lt in H. rewrite H, orb_true_r. reflexivity.
  - intros ->. reflexivity.
Qed.

Lemma detect_emotion_short_text_neutral_witness :
  (u "  ok  " = [] \/ (len (strip (u "  ok  ")) < 5)%Z)
  /\ Emotion.detect_emotion
       (fun _ => Returned [[ {| Emotion.s_label := u "joy"; Emotion.s_score := 9 # 10 |} ]])
       (u "  ok  ") 5
     = (Emotion._default_result, []).
Proof.
  split.
  - right. vm_compute. reflexivity.
  - refine (proj1 (detect_emotion_short_text_neutral _ (u "  ok  ") 5 _)).
    right. vm_compute. reflexivity.
Defined.

(** ** Sentiment fuser *)

(** C4. The combined label is the one the priority order picks: the base
    label above 0.8 base confidence, else the nuanced label above 0.8
    nuanced confidence, else the agreed label, else the label of the
    strictly more confident scorer, the base scorer winning ties. *)
Theorem combine_sentiments_priority_order
    (base_label : str) (base_conf : Q) (nuanced_label : str) (nuanced_conf : Q)
    (chosen : str) :
  Spec.priority_choice base_label base_conf nuanced_label nuanced_conf chosen
  <->
  chosen =
    Fusion._combine_sentiments
      {| Fusion.label := Some base_label; Fusion.confidence := Some base_conf |}
      {| Fusion.label := Some nuanced_label; Fusion.confidence := Some nuanced_conf |}.
Proof.
  unfold Fusion._combine_sentiments; simpl.
  destruct (fgtb base_conf (4 # 5)) eqn:Eb.
  { apply fgtb_lt in Eb. split.
    - intros H; inversion H; subst; try reflexivity; contradiction.
    - intros ->. constructor; assumption. }
  apply fgtb_not_lt in Eb.
  destruct (fgtb nuanced_conf (4 # 5)) eqn:En.
  { apply fgtb_lt in En. split.
    - intros H; inversion H; subst; try reflexivity; contradiction.
    - intros ->. apply Spec.nuanced_confident; assumption. }
  apply fgtb_not_lt in En.
  destruct (PyStr.eqb base_label nuanced_label) eqn:El.
  { apply eqb_eq in El. split.
    - intros H; inversion H; subst; try reflexivity; contradiction.
    - intros ->. apply Spec.labels_agree; assumption. }
  apply eqb_neq in El.
  destruct (fgeb base_conf nuanced_conf) eqn:Ec.
  - apply fgeb_le in Ec. split.
    + intros H; inversion H; subst; try reflexivity; try contradiction.
      exfalso. eapply Qlt_not_le; eassumption.
    + intros ->. apply Spec.base_higher_or_tie; assumption.
  - apply fgeb_not_le in Ec. split.
    + intros H; inversion H; subst; try reflexivity; try contradiction.
      exfalso. eapply Qlt_not_le; eassumption.
    + intros ->. apply Spec.nuanced_higher; assumption.
Qed.

Example combine_tie_goes_to_base :
  Fusion._combine_sentiments
    {| Fusion.label := Some (u "positive"); Fusion.confidence := Some (3 # 5) |}
    {| Fusion.label := Some (u "negative"); Fusion.confidence := Some (3 # 5) |}
  = u "positive".
Proof. reflexivity. Qed.

Example combine_threshold_is_strict :
  Fusion._combine_sentiments
    {| Fusion.label := Some (u "positive"); Fusion.confidence := Some (4 # 5) |}
    {| Fusion.label := Some (u "negative"); Fusion.confidence := Some (9 # 10) |}
  = u "negative".
Proof. reflexivity. Qed.

(** ** Generation client *)

Lemma existsb_occurs_any_in (words : list str) (prompt : str) :
  Forall (fun w => lower w = w) words ->
  existsb (fun w => Spec.occurs_ignoring_case w prompt) words
  = any_in words (lower prompt).
Proof.
  unfold any_in, Spec.occurs_ignoring_case.
  induction 1 as [|w ws Hw _ IH]; simpl; [reflexivity|].
  rewrite Hw, IH. reflexivity.
Qed.

Lemma keywords_are_lower_case :
  Forall (fun cat : list str * str => Forall (fun w => lower w = w) cat.1)
         Spec.fallback_categories.
Proof. repeat constructor. Qed.

Lemma fallback_response_keyword_matched (prompt : str) :
  Gemini._fallback_response prompt = Spec.keyword_matched_reply prompt.
Proof.
  pose proof keywords_are_lower_case as H.
  unfold Spec.fallback_categories in H.
  repeat match type of H with
         | Forall _ (_ :: _) => apply Forall_cons in H; destruct H as [? H]
         end.
  unfold Gemini._fallback_response, Spec.keyword_matched_reply,
    Spec.fallback_categories.
  cbn [List.find fst snd].
  rewrite !existsb_occurs_any_in by assumption.
  repeat match goal with
         | |- context [any_in ?ws ?p] => destruct (any_in ws p); [reflexivity|]
         end.
  reflexivity.
Qed.

(** C2. With no model configured, [generate_response] returns, for every
    prompt, the keyword-matched fallback string: the message of the first of
    the five keyword sets (sadness, anger, fear, joy, fatigue) with a
    keyword in the prompt, letter case aside, and the generic message when
    none matches.  The string depends on the prompt alone, the client is
    left as it was and the call has no event: the remote model is not
    invoked and nothing is slept. *)
Theorem unconfigured_generate_is_keyword_fallback
    (last interval now : Q) (prompt : str) (max_retries : Z) (temperature : Q) :
  let c := {| Gemini.model := None;
              Gemini.last_request_time := last;
              Gemini.min_request_interval := interval |} in
  Gemini.generate_response c now prompt max_retries temperature
  = (Spec.keyword_matched_reply prompt, c, []).
Proof.
  intros c. unfold Gemini.generate_response; simpl.
  rewrite fallback_response_keyword_matched. reflexivity.
Qed.

Example fallback_priority_sadness_first :
  Gemini._fallback_response (u "So HAPPY yet so Sad") = Gemini.sadness_reply.
Proof. vm_compute. reflexivity. Qed.

Example fallback_substring_match :
  Gemini._fallback_response (u "countdown") = Gemini.sadness_reply.
Proof. vm_compute. reflexivity. Qed.

Example fallback_generic :
  Gemini._fallback_response (u "Hello") = Gemini.generic_reply.
Proof. vm_compute. reflexivity. Qed.

(** The attempt loop when every attempt fails. *)
Lemma attempt_loop_all_failed (b : Gemini.backend) (prompt : str) (temperature : Q)
    (max_retries : Z) (todo attempt : nat) :
  (forall i, (attempt <= i < attempt + todo)%nat ->
             Spec.failed (b prompt temperature i) = true) ->
  Gemini.attempt_loop b prompt temperature max_retries todo attempt
  = (None,
     flat_map (Spec.failed_attempt_events b prompt temperature max_retries)
              (seq attempt todo)).
Proof.
  revert attempt; induction todo as [|todo IH]; intros attempt H; [reflexivity|].
  cbn [Gemini.attempt_loop seq flat_map].
  rewrite IH by (intros i Hi; apply H; lia).
  remember (flat_map _ (seq (S attempt) todo)) as later eqn:Hlater.
  clear Hlater. unfold Spec.failed_attempt_events.
  specialize (H attempt ltac:(lia)).
  destruct (b prompt temperature attempt) as [text| |]; simpl in *.
  - rewrite H. reflexivity.
  - reflexivity.
  - destruct (Z.of_nat attempt <? max_retries - 1)%Z; reflexivity.
Qed.

Lemma failed_attempt_events_last (b : Gemini.backend) (prompt : str)
    (temperature : Q) (n : nat) :
  exists e,
    last (flat_map (Spec.failed_attempt_events b prompt temperature (Z.of_nat (S n)))
                   (seq 0 (S n))) = Some e
    /\ (e = Gemini.LogError (S n) \/ e = Gemini.LogWarning (S n)).
Proof.
  rewrite seq_S, flat_map_app. cbn [flat_map Nat.add].
  rewrite app_nil_r.
  remember (flat_map _ (seq 0 n)) as earlier eqn:Hearlier.
  clear Hearlier. unfold Spec.failed_attempt_events.
  replace (Z.of_nat n <? Z.of_nat (S n) - 1)%Z with false
    by (symmetry; apply Z.ltb_ge; lia).
  rewrite andb_false_r.
  destruct (Spec.raised (b prompt temperature n)).
  - exists (Gemini.LogError (S n)). split; [|left; reflexivity].
    rewrite last_app. reflexivity.
  - exists (Gemini.LogWarning (S n)). split; [|right; reflexivity].
    rewrite last_app. reflexivity.
Qed.

(** The attempt loop while attempts fail: the [k] failed attempts leave
    their events and the loop goes on with what is left. *)
Lemma attempt_loop_failed_prefix (b : Gemini.backend) (prompt : str)
    (temperature : Q) (max_retries : Z) (k todo attempt : nat) :
  (forall i, (attempt <= i < attempt + k)%nat ->
             Spec.failed (b prompt temperature i) = true) ->
  Gemini.attempt_loop b prompt temperature max_retries (k + todo) attempt
  = ((Gemini.attempt_loop b prompt temperature max_retries todo (attempt + k)).1,
     flat_map (Spec.failed_attempt_events b prompt temperature max_retries)
              (seq attempt k)
     ++ (Gemini.attempt_loop b prompt temperature max_retries todo (attempt + k)).2).
Proof.
  revert attempt; induction k as [|k IH]; intros attempt H.
  - rewrite Nat.add_0_r. cbn [Nat.add seq flat_map app].
    destruct (Gemini.attempt_loop _ _ _ _ _ _); reflexivity.
  - cbn [Nat.add Gemini.attempt_loop seq flat_map].
    rewrite IH by (intros i Hi; apply H; lia).
    replace (S attempt + k)%nat with (attempt + S k)%nat by lia.
    set (rest := Gemini.attempt_loop _ _ _ _ todo _).
    remember (flat_map _ (seq (S attempt) k)) as later eqn:Hlater.
    clear Hlater. unfold Spec.failed_attempt_events.
    specialize (H attempt ltac:(lia)).
    destruct (b prompt temperature attempt) as [text| |]; simpl in *.
    + rewrite H. reflexivity.
    + reflexivity.
    + destruct (Z.of_nat attempt <? max_retries - 1)%Z; reflexivity.
Qed.

Lemma generate_response_all_failed
    (c : Gemini.GeminiClient) (b : Gemini.backend) (now : Q) (prompt : str)
    (max_retries : Z) (temperature : Q) :
  Gemini.model c = Some b ->
  (forall i : nat, (Z.of_nat i < max_retries)%Z ->
                   Spec.failed (b prompt temperature i) = true) ->
  (Gemini.generate_response c now prompt max_retries temperature).1.1
  = Gemini._fallback_response prompt
  /\ (Gemini.generate_response c now prompt max_retries temperature).2 =
       (Gemini._enforce_rate_limit c now).2
       ++ flat_map (Spec.failed_attempt_events b prompt temperature max_retries)
                   (seq 0 (Z.to_nat max_retries)).
Proof.
  intros Hm Hfail. unfold Gemini.generate_response. rewrite Hm.
  rewrite attempt_loop_all_failed by (intros i Hi; apply Hfail; lia).
  cbn [fst snd]. split; reflexivity.
Qed.

Lemma generate_response_first_success
    (c : Gemini.GeminiClient) (b : Gemini.backend) (now : Q) (prompt : str)
    (max_retries : Z) (temperature : Q) (k : nat) (text : str) :
  Gemini.model c = Some b ->
  (k < Z.to_nat max_retries)%nat ->
  (forall i : nat, (i < k)%nat -> Spec.failed (b prompt temperature i) = true) ->
  b prompt temperature k = Gemini.Reply text ->
  text <> [] ->
  (Gemini.generate_response c now prompt max_retries temperature).1.1 = strip text
  /\ (Gemini.generate_response c now prompt max_retries temperature).2 =
       (Gemini._enforce_rate_limit c now).2
       ++ flat_map (Spec.failed_attempt_events b prompt temperature max_retries)
                   (seq 0 k)
       ++ [Gemini.Remote prompt temperature].
Proof.
  intros Hm Hk Hfail Hreply Htext. unfold Gemini.generate_response. rewrite Hm.
  replace (Z.to_nat max_retries) with (k + S (Z.to_nat max_retries - S k))%nat by lia.
  rewrite attempt_loop_failed_prefix by (intros i Hi; apply Hfail; lia).
  cbn [Nat.add Gemini.attempt_loop]. rewrite Hreply.
  destruct text as [|x text]; [congruence|]. cbn [is_empty negb fst snd].
  split; reflexivity.
Qed.

(** C7, as the code has it. With a model configured, the attempts that
    fail before the first usable result are each one remote call followed
    by its log entry (an error for a raised exception, a warning for an
    empty result); the client waits [2^attempt] seconds after an attempt
    that raised and is not the last, and does not wait after an attempt
    with an empty result.  When an attempt yields a text, the call returns
    it trimmed; when all [max_retries] attempts fail, the call ends in the
    deterministic fallback, and its last event is the log entry of the last
    attempt, not a wait. *)
Theorem failed_attempts_logged_and_backoff_after_errors
    (c : Gemini.GeminiClient) (b : Gemini.backend) (now : Q) (prompt : str)
    (max_retries : Z) (temperature : Q) (k : nat) :
  Gemini.model c = Some b ->
  (k <= Z.to_nat max_retries)%nat ->
  (forall i : nat, (i < k)%nat -> Spec.failed (b prompt temperature i) = true) ->
  let run := Gemini.generate_response c now prompt max_retries temperature in
  let failures :=
    flat_map (Spec.failed_attempt_events b prompt temperature max_retries)
             (seq 0 k) in
  (k = Z.to_nat max_retries ->
   run.1.1 = Gemini._fallback_response prompt
   /\ run.2 = (Gemini._enforce_rate_limit c now).2 ++ failures
   /\ ((0 < max_retries)%Z ->
       exists e, last run.2 = Some e
                 /\ (e = Gemini.LogError k \/ e = Gemini.LogWarning k)))
  /\ (forall text,
         (k < Z.to_nat max_retries)%nat ->
         b prompt temperature k = Gemini.Reply text -> text <> [] ->
         run.1.1 = strip text
         /\ run.2 = (Gemini._enforce_rate_limit c now).2 ++ failures
                    ++ [Gemini.Remote prompt temperature]).
Proof.
  intros Hm Hk Hfail run failures. subst run failures. split.
  - intros ->.
    destruct (generate_response_all_failed
                c b now prompt max_retries temperature Hm) as [Hr Ht].
    { intros i Hi. apply Hfail. lia. }
    split; [exact Hr|]. split; [exact Ht|].
    intros Hpos. rewrite Ht.
    destruct (Z.to_nat max_retries) as [|n] eqn:En; [lia|].
    replace max_retries with (Z.of_nat (S n)) by lia.
    destruct (failed_attempt_events_last b prompt temperature n) as (e & He & Hcase).
    exists e. split; [|exact Hcase].
    rewrite last_app, He. reflexivity.
  - intros text Hlt Hreply Htext.
    exact (generate_response_first_success
             c b now prompt max_retries temperature k text Hm Hlt Hfail Hreply Htext).
Qed.

Lemma failed_attempts_logged_and_backoff_after_errors_witness :
  let b : Gemini.backend :=
    fun _ _ attempt =>
      match attempt with 1%nat => Gemini.Reply [] | _ => Gemini.ApiError end in
  let c := {| Gemini.model := Some b;
              Gemini.last_request_time := 0;
              Gemini.min_request_interval := 1 |} in
  let run := Gemini.generate_response c 100 (u "Hello") 3 (7 # 10) in
  run.1.1 = Gemini.generic_reply
  /\ run.2 = [ Gemini.Remote (u "Hello") (7 # 10); Gemini.LogError 1; Gemini.Sleep 1;
               Gemini.Remote (u "Hello") (7 # 10); Gemini.LogWarning 2;
               Gemini.Remote (u "Hello") (7 # 10); Gemini.LogError 3 ].
Proof.
  intros b c run.
  destruct (failed_attempts_logged_and_backoff_after_errors
              c b 100 (u "Hello") 3 (7 # 10) 3) as [Hall _].
  - reflexivity.
  - vm_compute. lia.
  - intros [|[|[|i]]] Hi; reflexivity.
  - destruct (Hall eq_refl) as (Hr & Ht & _).
    split; [exact Hr | exact Ht].
Defined.

Example second_attempt_succeeds :
  let b : Gemini.backend :=
    fun _ _ attempt =>
      match attempt with
      | 0%nat => Gemini.ApiError
      | _ => Gemini.Reply (u " I hear you. ")
      end in
  let c := {| Gemini.model := Some b;
              Gemini.last_request_time := 0;
              Gemini.min_request_interval := 1 |} in
  let run := Gemini.generate_response c (1 # 4) (u "Hello") 3 (7 # 10) in
  run.1.1 = u "I hear you."
  /\ run.2 = [ Gemini.Sleep (3 # 4);
               Gemini.Remote (u "Hello") (7 # 10); Gemini.LogError 1; Gemini.Sleep 1;
               Gemini.Remote (u "Hello") (7 # 10) ].
Proof. split; reflexivity. Qed.

(** C7, as stated, fails: with a model whose every result is empty, three
    attempts are made and logged, and no wait follows the first one. *)
Lemma empty_results_are_retried_without_backoff :
  ~ Spec.waits_after_every_failed_attempt
      (fun _ _ _ => Gemini.NoReply) (u "Hello") (7 # 10) 3.
Proof.
  intros H. specialize (H 0%nat ltac:(lia) ltac:(intros; reflexivity)).
  apply list_elem_of_In in H. vm_compute in H.
  repeat destruct H as [H | H]; try discriminate H. exact H.
Qed.

Example empty_results_trace :
  (Gemini.attempt_loop (fun _ _ _ => Gemini.NoReply) (u "Hello") (7 # 10) 3 3 0).2
  = [ Gemini.Remote (u "Hello") (7 # 10); Gemini.LogWarning 1;
      Gemini.Remote (u "Hello") (7 # 10); Gemini.LogWarning 2;
      Gemini.Remote (u "Hello") (7 # 10); Gemini.LogWarning 3 ].
Proof. reflexivity. Qed.

(** C8. The health check is to report [available = false] whenever the
    probe's response comes from the fallback path.  At a configured client
    whose model raises, the single attempt fails, the probe's response is
    the fallback path's generic message, and the check reports
    [available = true]: the fallback texts do not contain the word the
    check looks for. *)
Theorem health_check_reports_fallback_as_available :
  let c := {| Gemini.model := Some (fun _ _ _ => Gemini.ApiError);
              Gemini.last_request_time := 0;
              Gemini.min_request_interval := 1 |} in
  let probe := Gemini.check_api_health c 100 in
  probe.1.2 = Some (Gemini._fallback_response (u "Hello"))
  /\ probe.2 = [ Gemini.Remote (u "Hello") (7 # 10); Gemini.LogError 1 ]
  /\ Gemini.available probe.1.1 = true
  /\ Gemini.reason probe.1.1 = u "API working".
Proof. vm_compute. repeat split; reflexivity. Qed.

(** No text of the fallback path contains the word the health check and
    the synthesizer look for. *)
Lemma fallback_texts_lack_marker (prompt : str) :
  contains (u "fallback") (lower (Gemini._fallback_response prompt)) = false
  /\ (0 <? len (Gemini._fallback_response prompt))%Z = true
  /\ (len (Gemini._fallback_response prompt) <=? 200)%Z = true.
Proof.
  unfold Gemini._fallback_response.
  repeat match goal with
         | |- context [any_in ?ws ?p] => destruct (any_in ws p)
         end; vm_compute; repeat split; reflexivity.
Qed.

(** Whenever the probe's single attempt fails, the check reports
    [available = true]. *)
Lemma health_check_failed_probe_available
    (c : Gemini.GeminiClient) (b : Gemini.backend) (now : Q) :
  Gemini.model c = Some b ->
  Spec.failed (b (u "Hello") (7 # 10) 0%nat) = true ->
  Gemini.available (Gemini.check_api_health c now).1.1 = true.
Proof.
  intros Hm Hf. unfold Gemini.check_api_health. rewrite Hm.
  cbn [fst snd Gemini.available].
  unfold Gemini.generate_response. rewrite Hm.
  change (Z.to_nat 1) with 1%nat.
  rewrite (attempt_loop_all_failed b (u "Hello") (7 # 10) 1 1 0).
  - cbn [fst snd].
    destruct (fallback_texts_lack_marker (u "Hello")) as (H1 & H2 & _).
    rewrite H1, H2. reflexivity.
  - intros i Hi. replace i with 0%nat by lia. exact Hf.
Qed.

Lemma health_check_failed_probe_available_witness :
  Gemini.available
    (Gemini.check_api_health
       {| Gemini.model := Some (fun _ _ _ => Gemini.Reply []);
          Gemini.last_request_time := 0;
          Gemini.min_request_interval := 1 |} 5).1.1 = true.
Proof.
  apply (health_check_failed_probe_available _ (fun _ _ _ => Gemini.Reply []));
    reflexivity.
Defined.

(** ** Substrings, trimming, splitting *)

Lemma contains_unfold (n h : str) :
  contains n h
  = startswith n h || match h with [] => false | _ :: t => contains n t end.
Proof. destruct h; reflexivity. Qed.

Lemma startswith_app (p r : str) : startswith p (p ++ r) = true.
Proof.
  induction p as [|a p IH]; simpl; [reflexivity|].
  rewrite N.eqb_refl, IH. reflexivity.
Qed.

Lemma startswith_split (p s : str) :
  startswith p s = true -> exists r, s = p ++ r.
Proof.
  revert s; induction p as [|a p IH]; intros s H.
  - exists s. reflexivity.
  - destruct s as [|b s]; simpl in H; [discriminate|].
    apply andb_true_iff in H. destruct H as [Hab H].
    apply N.eqb_eq in Hab. subst b.
    destruct (IH s H) as [r ->]. exists r. reflexivity.
Qed.

Lemma contains_occurs (n h : str) : contains n h = true <-> occurs_in n h.
Proof.
  unfold occurs_in. split.
  - induction h as [|c h IH]; rewrite contains_unfold; intros H.
    + rewrite orb_false_r in H. apply startswith_split in H.
      destruct H as [r Hr]. exists [], r. exact Hr.
    + apply orb_true_iff in H. destruct H as [H | H].
      * apply startswith_split in H. destruct H as [r Hr]. exists [], r. exact Hr.
      * destruct (IH H) as (a & b & ->). exists (c :: a), b. reflexivity.
  - intros (a & b & ->). induction a as [|c a IH]; rewrite contains_unfold.
    + simpl. rewrite startswith_app. reflexivity.
    + simpl. rewrite IH. apply orb_true_r.
Qed.

Lemma occurs_in_trans (x y z : str) : occurs_in x y -> occurs_in y z -> occurs_in x z.
Proof.
  intros (a & b & ->) (a' & b' & ->).
  exists (a' ++ a), (b ++ b'). rewrite <- !app_assoc. reflexivity.
Qed.

Lemma lower_app (a b : str) : lower (a ++ b) = lower a ++ lower b.
Proof. unfold lower. apply flat_map_app. Qed.

Lemma lower_occurs_in (x h : str) : occurs_in x h -> occurs_in (lower x) (lower h).
Proof.
  intros (a & b & ->). exists (lower a), (lower b).
  rewrite !lower_app. reflexivity.
Qed.

Lemma lstrip_suffix (s : str) : exists a, s = a ++ lstrip s.
Proof.
  induction s as [|c s [a IH]]; simpl.
  - exists []. reflexivity.
  - destruct (isspace c).
    + exists (c :: a). simpl. rewrite <- IH. reflexivity.
    + exists []. reflexivity.
Qed.

Lemma strip_occurs_in (s : str) : occurs_in (strip s) s.
Proof.
  unfold strip, rstrip.
  destruct (lstrip_suffix s) as [a Ha].
  destruct (lstrip_suffix (rev (lstrip s))) as [b Hb].
  apply (f_equal (@rev N)) in Hb. rewrite rev_involutive, rev_app_distr in Hb.
  exists a, (rev b). rewrite <- Hb. exact Ha.
Qed.

Lemma nil_or_snoc {A : Type} (l : list A) :
  l = [] \/ exists l' x, l = l' ++ [x].
Proof.
  induction l as [|x l _] using rev_ind; [left; reflexivity|].
  right. exists l, x. reflexivity.
Qed.

Lemma contains_drop_last (n h : str) (c : N) :
  n <> [] -> ~ In c n -> contains n (h ++ [c]) = true -> contains n h = true.
Proof.
  intros Hn Hc H. apply contains_occurs in H. apply contains_occurs.
  destruct H as (a & b & H).
  destruct (nil_or_snoc b) as [-> | (b' & y & ->)].
  - exfalso. rewrite app_nil_r in H.
    destruct (nil_or_snoc n) as [-> | (n' & y & ->)]; [congruence|].
    rewrite app_assoc in H. apply app_inj_tail in H. destruct H as [_ <-].
    apply Hc. apply in_or_app. right. left. reflexivity.
  - rewrite !app_assoc in H. apply app_inj_tail in H. destruct H as [H _].
    exists a, b'. rewrite H, app_assoc. reflexivity.
Qed.

Lemma split_go_skip (sep pre s cur : str) :
  split_go sep (pre ++ s) cur (length pre) = split_go sep s cur 0.
Proof.
  induction pre as [|c pre IH]; simpl; [|exact IH].
  destruct s; reflexivity.
Qed.

Lemma split_go_nonempty (sep s cur : str) (skip : nat) :
  split_go sep s cur skip <> [].
Proof.
  revert cur skip; induction s as [|c s IH]; intros cur skip; simpl; [discriminate|].
  destruct skip; [|apply IH].
  destruct (startswith sep (c :: s)); [discriminate | apply IH].
Qed.

Lemma join_cons (sep p : str) (rest : list str) :
  rest <> [] -> join sep (p :: rest) = p ++ sep ++ join sep rest.
Proof. destruct rest; [congruence | reflexivity]. Qed.

Lemma join_split_go (sep : str) :
  sep <> [] ->
  forall (n : nat) (s cur : str),
    (length s <= n)%nat -> join sep (split_go sep s cur 0) = rev cur ++ s.
Proof.
  intros Hsep. induction n as [|n IH]; intros s cur Hlen.
  - destruct s; [|simpl in Hlen; lia]. simpl. rewrite app_nil_r. reflexivity.
  - destruct s as [|c t]; [simpl; rewrite app_nil_r; reflexivity|].
    simpl in Hlen. cbn [split_go].
    destruct (startswith sep (c :: t)) eqn:E.
    + apply startswith_split in E. destruct E as [r Hr].
      destruct sep as [|x sep']; [congruence|].
      simpl in Hr. injection Hr as -> ->.
      replace (length (x :: sep') - 1)%nat with (length sep') by (simpl; lia).
      rewrite split_go_skip, join_cons by apply split_go_nonempty.
      rewrite (IH r []) by (rewrite length_app in Hlen; lia).
      reflexivity.
    + rewrite (IH t (c :: cur)) by lia. simpl. rewrite <- app_assoc. reflexivity.
Qed.

Lemma join_split (sep s : str) : sep <> [] -> join sep (split sep s) = s.
Proof.
  intros Hsep. unfold split. apply (join_split_go sep Hsep (length s) s []).
  reflexivity.
Qed.

Lemma join_take_prefix (sep : str) (parts : list str) (k : nat) :
  exists rest, join sep parts = join sep (take k parts) ++ rest.
Proof.
  revert k; induction parts as [|p ps IH]; intros k.
  - exists []. destruct k; reflexivity.
  - destruct k as [|k]; [exists (join sep (p :: ps)); reflexivity|].
    destruct ps as [|q ps].
    + exists []. simpl. rewrite take_nil, app_nil_r. reflexivity.
    + destruct (IH k) as [rest Hrest].
      rewrite (join_cons sep p (q :: ps)) by (intros ?; discriminate).
      destruct k as [|k].
      * exists (sep ++ join sep (q :: ps)). reflexivity.
      * change (take (S (S k)) (p :: q :: ps)) with (p :: q :: take k ps).
        rewrite (join_cons sep p (q :: take k ps)) by (intros ?; discriminate).
        exists rest. rewrite Hrest. rewrite <- !app_assoc. reflexivity.
Qed.

(** The first sentences of a text are a prefix of it. *)
Lemma first_sentences_prefix (sep s : str) (k : nat) :
  sep <> [] -> exists rest, s = join sep (take k (split sep s)) ++ rest.
Proof.
  intros Hsep. destruct (join_take_prefix sep (split sep s) k) as [rest H].
  exists rest. rewrite <- H. symmetry. apply join_split. exact Hsep.
Qed.

(** ** Response synthesizer *)

Lemma any_in_false (words : list str) (hay w : str) :
  any_in words hay = false -> In w words -> contains w hay = false.
Proof.
  unfold any_in. intros H Hw.
  destruct (contains w hay) eqn:E; [|reflexivity].
  assert (existsb (fun w => contains w hay) words = true) as Ht
    by (apply existsb_exists; exists w; split; assumption).
  congruence.
Qed.

Lemma any_in_mono (words : list str) (x h : str) :
  occurs_in x h -> any_in words h = false -> any_in words x = false.
Proof.
  intros Hocc H. unfold any_in in *.
  destruct (existsb (fun w => contains w x) words) eqn:E; [|reflexivity].
  apply existsb_exists in E. destruct E as (w & Hw & Hc).
  assert (contains w h = true) as Hh.
  { apply contains_occurs. eapply occurs_in_trans; [|exact Hocc].
    apply contains_occurs. exact Hc. }
  assert (existsb (fun w => contains w h) words = true) as Ht
    by (apply existsb_exists; exists w; split; assumption).
  congruence.
Qed.

Lemma templates_cases (emotion : str) :
  In (default Synth.templates_neutral (dict_get Synth.response_templates emotion))
     [ Synth.templates_sadness; Synth.templates_anger; Synth.templates_fear;
       Synth.templates_joy; Synth.templates_neutral ].
Proof.
  unfold Synth.response_templates. cbn [dict_get].
  repeat match goal with
         | |- context [PyStr.eqb ?k emotion] => destruct (PyStr.eqb k emotion)
         end; simpl; tauto.
Qed.

Lemma get_template_response_in (rnd : nat) (emotion user_text : str) :
  In (Synth._get_template_response rnd emotion user_text)
     (default Synth.templates_neutral (dict_get Synth.response_templates emotion)).
Proof.
  unfold Synth._get_template_response.
  pose proof (templates_cases emotion) as H.
  set (templates := default _ _) in *.
  assert (length templates = 3%nat) as Hlen.
  { simpl in H. destruct H as [<-|[<-|[<-|[<-|[<-|[]]]]]]; reflexivity. }
  apply nth_In. rewrite Hlen. apply Nat.mod_upper_bound. discriminate.
Qed.

Lemma templates_hold_no_phrase :
  forallb (fun templates =>
             forallb (fun t => negb (any_in Synth.inappropriate_phrases (lower t)))
                     templates)
          [ Synth.templates_sadness; Synth.templates_anger; Synth.templates_fear;
            Synth.templates_joy; Synth.templates_neutral ] = true.
Proof. vm_compute. reflexivity. Qed.

Lemma template_response_no_phrase (rnd : nat) (emotion user_text : str) :
  any_in Synth.inappropriate_phrases
         (lower (Synth._get_template_response rnd emotion user_text)) = false.
Proof.
  pose proof templates_hold_no_phrase as H.
  rewrite forallb_forall in H.
  specialize (H _ (templates_cases emotion)).
  rewrite forallb_forall in H.
  specialize (H _ (get_template_response_in rnd emotion user_text)).
  apply negb_true_iff in H. exact H.
Qed.

Lemma phrases_nonempty_without_full_stop :
  Forall (fun p : str => p <> [] /\ ~ In 46 p) Synth.inappropriate_phrases.
Proof.
  repeat constructor; try discriminate;
    intros H; vm_compute in H; repeat destruct H as [H | H]; try discriminate H;
    exact H.
Qed.

(** A text that passed the phrase check still passes it after the cut to
    its first sentences with a full stop added. *)
Lemma truncated_no_phrase (response : str) (k : nat) :
  any_in Synth.inappropriate_phrases (lower response) = false ->
  any_in Synth.inappropriate_phrases
         (lower (join (u ". ") (take k (split (u ". ") response)) ++ u ".")) = false.
Proof.
  intros Hclean.
  destruct (first_sentences_prefix (u ". ") response k) as [rest Hrest];
    [discriminate|].
  set (kept := join (u ". ") (take k (split (u ". ") response))) in *.
  unfold any_in.
  destruct (existsb _ Synth.inappropriate_phrases) eqn:E; [|reflexivity].
  exfalso. apply existsb_exists in E. destruct E as (p & Hp & Hc).
  pose proof phrases_nonempty_without_full_stop as Hphr.
  rewrite Forall_forall in Hphr. destruct (Hphr p) as [Hne Hdot].
  { apply list_elem_of_In. exact Hp. }
  rewrite lower_app in Hc. change (lower (u ".")) with [46] in Hc.
  apply contains_drop_last in Hc; [|assumption|assumption].
  assert (contains p (lower response) = true) as Hin.
  { apply contains_occurs. eapply occurs_in_trans.
    - apply contains_occurs. exact Hc.
    - exists [], (lower rest). rewrite <- lower_app, <- Hrest. reflexivity. }
  rewrite (any_in_false _ _ p Hclean Hp) in Hin. discriminate.
Qed.

Lemma validate_no_phrase (rnd : nat) (response emotion user_text : str) :
  any_in Synth.inappropriate_phrases
    (lower (Synth._validate_and_enhance_response rnd response emotion user_text))
  = false.
Proof.
  unfold Synth._validate_and_enhance_response.
  destruct (is_empty response || (len (strip response) <? 10)%Z);
    [apply template_response_no_phrase|].
  destruct (any_in Synth.inappropriate_phrases (lower response)) eqn:Hclean;
    [apply template_response_no_phrase|].
  eapply any_in_mono.
  - apply lower_occurs_in. apply strip_occurs_in.
  - destruct (200 <? len response)%Z; [|exact Hclean].
    apply truncated_no_phrase. exact Hclean.
Qed.

Lemma is_empty_short (s : str) :
  is_empty s || (len (strip s) <? 10)%Z = (len (strip s) <? 10)%Z.
Proof. destruct s; reflexivity. Qed.

(** X25. A result whose trimmed length is below 10 or which contains a
    denylisted phrase (letter case aside) is replaced by one of the canned
    templates of the emotion.  A result that passes and has at most 200
    characters is returned trimmed, and then has at least 10 characters; a
    result that passes and is longer is cut to its first two sentences
    (split on ". ") with a full stop added, and trimmed.  In every case the
    returned response contains no denylisted phrase. *)
Theorem validate_replaces_rejected_and_truncates_long
    (rnd : nat) (response emotion user_text : str) :
  let out := Synth._validate_and_enhance_response rnd response emotion user_text in
  let templates :=
    default Synth.templates_neutral (dict_get Synth.response_templates emotion) in
  let rejected :=
    (len (strip response) <? 10)%Z
    || any_in Synth.inappropriate_phrases (lower response) in
  (rejected = true -> In out templates)
  /\ (rejected = false -> (len response <= 200)%Z ->
      out = strip response /\ (10 <= len out)%Z)
  /\ (rejected = false -> (200 < len response)%Z ->
      out = strip (join (u ". ") (take 2 (split (u ". ") response)) ++ u "."))
  /\ (forall phrase, In phrase Synth.inappropriate_phrases ->
                     contains phrase (lower out) = false).
Proof.
  intros out templates rejected. subst out templates rejected.
  repeat split.
  - unfold Synth._validate_and_enhance_response. rewrite is_empty_short.
    intros H. apply orb_true_iff in H.
    destruct (len (strip response) <? 10)%Z; [apply get_template_response_in|].
    destruct H as [H | H]; [discriminate|]. rewrite H.
    apply get_template_response_in.
  - apply orb_false_iff in H. destruct H as [Hs Hp].
    unfold Synth._validate_and_enhance_response.
    rewrite is_empty_short, Hs, Hp.
    apply Z.leb_le in H0. rewrite Z.leb_antisym in H0.
    apply negb_true_iff in H0. rewrite H0. reflexivity.
  - apply orb_false_iff in H. destruct H as [Hs Hp].
    unfold Synth._validate_and_enhance_response.
    rewrite is_empty_short, Hs, Hp.
    apply Z.leb_le in H0. rewrite Z.leb_antisym in H0.
    apply negb_true_iff in H0. rewrite H0.
    apply Z.ltb_ge in Hs. exact Hs.
  - intros H Hlong. apply orb_false_iff in H. destruct H as [Hs Hp].
    unfold Synth._validate_and_enhance_response.
    rewrite is_empty_short, Hs, Hp.
    apply Z.ltb_lt in Hlong. rewrite Hlong. reflexivity.
  - intros phrase Hphrase.
    exact (any_in_false _ _ phrase (validate_no_phrase rnd response emotion user_text)
                        Hphrase).
Qed.

Lemma validate_replaces_rejected_and_truncates_long_witness :
  In (Synth._validate_and_enhance_response 4 (u "I'm just an AI, sorry.") (u "fear") [])
     Synth.templates_fear
  /\ Synth._validate_and_enhance_response 0 (u "  That sounds hard.  ") (u "fear") []
     = u "That sounds hard.".
Proof.
  split.
  - refine (proj1 (validate_replaces_rejected_and_truncates_long
                     4 (u "I'm just an AI, sorry.") (u "fear") []) _).
    vm_compute. reflexivity.
  - refine (proj1 (proj1 (proj2 (validate_replaces_rejected_and_truncates_long
                     0 (u "  That sounds hard.  ") (u "fear") [])) _ _)).
    + vm_compute. reflexivity.
    + vm_compute. discriminate.
Defined.

(** C3. A response that is not a canned template is to have at least 10
    characters: the function rejects shorter results at its head, and the
    system test counts a response under 10 characters as invalid.  The cut
    to two sentences comes after that check and is not checked again: a
    result of 208 characters whose first two sentences are short passes and
    is returned as the 7 characters "Ok. Ok.", which is no template. *)
Lemma truncation_returns_short_response :
  let response := u "Ok. Ok. " ++ repeat 120 200 in
  let out := Synth._validate_and_enhance_response 0 response (u "joy") [] in
  len response = 208%Z
  /\ out = u "Ok. Ok."
  /\ ~ (In out (default Synth.templates_neutral
                        (dict_get Synth.response_templates (u "joy")))
        \/ (10 <= len out)%Z).
Proof.
  vm_compute. split; [reflexivity|]. split; [reflexivity|].
  intros [H | H].
  - repeat destruct H as [H | H]; try discriminate H. exact H.
  - apply H. reflexivity.
Qed.

Lemma response_confidence_at_least_base (response emotion : str) :
  (7 # 10 <= Synth._calculate_response_confidence response emotion)%Q.
Proof.
  unfold Synth._calculate_response_confidence.
  destruct (50 <? len response)%Z; destruct (negb _ && _);
    vm_compute; discriminate.
Qed.

(** The client's fallback texts pass the synthesizer's validation as they
    are. *)
Lemma validate_keeps_fallback_text (rnd : nat) (prompt emotion user_text : str) :
  Synth._validate_and_enhance_response
    rnd (Gemini._fallback_response prompt) emotion user_text
  = Gemini._fallback_response prompt.
Proof.
  unfold Gemini._fallback_response.
  repeat match goal with
         | |- context [any_in ?ws (lower prompt)] => destruct (any_in ws (lower prompt))
         end; vm_compute; reflexivity.
Qed.

Lemma generation_method_not_fallback_template (llm_response : str) :
  (if negb (contains (u "fallback") (lower llm_response))
   then u "llm" else u "template") <> u "fallback_template".
Proof. destruct (negb _); vm_compute; discriminate. Qed.

(** C1, as the code has it. When the generation call raises to the
    synthesizer, the result is one of the canned templates of the primary
    emotion with generation_method "fallback_template" and confidence 0.5;
    the synthesizer returns a result in either case.  Wired to the
    generation client, the call does not raise: the result never carries
    "fallback_template", its confidence is the computed score of at least
    0.7, and when the backend raises on each of the three attempts the
    response is the client's keyword fallback text. *)
Theorem synthesizer_template_on_raise_client_fallback_otherwise
    (rnd : nat) (user_text fused_emotion : str)
    (history : option (list Synth.history_item)) :
  let primary := Synth._extract_primary_emotion fused_emotion in
  let prompt := Synth._build_prompt user_text fused_emotion primary history in
  (forall ask : str -> Q -> outcome str,
      ask prompt (7 # 10) = Raised ->
      let r := Synth.generate_response ask rnd user_text fused_emotion history in
      In (Synth.response r)
         (default Synth.templates_neutral (dict_get Synth.response_templates primary))
      /\ Synth.emotion_detected r = fused_emotion
      /\ Synth.primary_emotion r = primary
      /\ Synth.generation_method r = u "fallback_template"
      /\ Synth.confidence r = 1 # 2)
  /\ (forall (c : Gemini.GeminiClient) (now : Q),
         let r := Synth.generate_with_client c now rnd user_text fused_emotion history in
         Synth.generation_method r <> u "fallback_template"
         /\ (7 # 10 <= Synth.confidence r)%Q)
  /\ (forall (c : Gemini.GeminiClient) (b : Gemini.backend) (now : Q),
         Gemini.model c = Some b ->
         (forall i : nat, (i < 3)%nat -> b prompt (7 # 10) i = Gemini.ApiError) ->
         let r := Synth.generate_with_client c now rnd user_text fused_emotion history in
         Synth.response r = Gemini._fallback_response prompt).
Proof.
  intros primary prompt. split; [|split].
  - intros ask Hask r. subst r. unfold Synth.generate_response.
    fold primary. fold prompt. rewrite Hask.
    unfold Synth._fallback_response. fold primary.
    cbn [Synth.response Synth.emotion_detected Synth.primary_emotion
         Synth.generation_method Synth.confidence].
    split; [apply get_template_response_in|]. repeat split.
  - intros c now r. subst r.
    unfold Synth.generate_with_client, Synth.generate_response.
    cbn [Synth.generation_method Synth.confidence].
    split.
    + apply generation_method_not_fallback_template.
    + apply response_confidence_at_least_base.
  - intros c b now Hm Hraise r. subst r.
    unfold Synth.generate_with_client, Synth.generate_response.
    fold primary. fold prompt. cbn [Synth.response].
    destruct (generate_response_all_failed
                c b now prompt 3 (7 # 10) Hm) as [Hr _].
    { intros i Hi. rewrite Hraise by lia. reflexivity. }
    unfold Gemini.ask_gemini. rewrite Hr.
    apply validate_keeps_fallback_text.
Qed.

Lemma synthesizer_template_on_raise_client_fallback_otherwise_witness :
  let r := Synth.generate_response (fun _ _ => Raised) 1 (u "hello")
                                   (u "negative-sadness") None in
  Synth.generation_method r = u "fallback_template"
  /\ Synth.confidence r = 1 # 2
  /\ In (Synth.response r) Synth.templates_sadness.
Proof.
  destruct (proj1 (synthesizer_template_on_raise_client_fallback_otherwise
                     1 (u "hello") (u "negative-sadness") None)
                  (fun _ _ => Raised) eq_refl) as (Hin & _ & _ & Hm & Hc).
  split; [exact Hm|]. split; [exact Hc | exact Hin].
Defined.

(** C1, as stated, fails: with a backend that raises on each of the three
    attempts, the synthesizer returns the client's generic fallback text
    with a generation_method other than "fallback_template" and a
    confidence of 0.8. *)
Lemma raising_backend_result_is_not_fallback_template :
  let c := {| Gemini.model := Some (fun _ _ _ => Gemini.ApiError);
              Gemini.last_request_time := 0;
              Gemini.min_request_interval := 1 |} in
  let r := Synth.generate_with_client c 100 0 (u "hello") (u "neutral") None in
  Synth.response r = Gemini.generic_reply
  /\ Synth.confidence r = 4 # 5
  /\ ~ (Synth.generation_method r = u "fallback_template"
        /\ Synth.confidence r = 1 # 2).
Proof.
  vm_compute. split; [reflexivity|]. split; [reflexivity|].
  intros [H _]. discriminate H.
Qed.

(** ** Memory store *)

Lemma is_zero_Qeq (q : Q) : is_zero q = true <-> (q == 0)%Q.
Proof.
  unfold is_zero, Qeq. simpl. rewrite Z.eqb_eq. lia.
Qed.

Lemma or_half_nonzero (confidence : option Q) :
  ~ (Memory.or_half confidence == 0)%Q.
Proof.
  unfold Memory.or_half. destruct confidence as [c|]; [|discriminate].
  destruct (is_zero c) eqn:E; [discriminate|].
  intros H. apply is_zero_Qeq in H. congruence.
Qed.

Lemma or_half_falsy (confidence : option Q) :
  confidence = None \/ (exists q, confidence = Some q /\ (q == 0)%Q) ->
  Memory.or_half confidence = 1 # 2.
Proof.
  intros [-> | (q & -> & Hq)]; [reflexivity|].
  unfold Memory.or_half. apply is_zero_Qeq in Hq. rewrite Hq. reflexivity.
Qed.

Lemma add_emotion_record_rows (self : Memory.MemoryManager) (clk : Memory.clock)
    (ok : bool) (emotion_label : str) (confidence : option Q)
    (message response session_id : option str) (s : Memory.store) :
  let s' := (Memory.add_emotion_record self clk ok emotion_label confidence
                                       message response session_id s).2 in
  (Memory.sqlite_rows s' = Memory.sqlite_rows s
   \/ exists r, Memory.sqlite_rows s' = Memory.sqlite_rows s ++ [r]
                /\ Memory.user_id r = Memory.self_user_id self
                /\ Memory.confidence r = Memory.or_half confidence)
  /\ (Memory.sheet_rows s' = Memory.sheet_rows s
      \/ exists r, Memory.sheet_rows s' = Memory.sheet_rows s ++ [r]
                   /\ Memory.user_id r = Memory.self_user_id self
                   /\ Memory.confidence r = Memory.or_half confidence).
Proof.
  unfold Memory.add_emotion_record, Memory._add_to_sheets, Memory._add_to_sqlite.
  destruct (Memory.use_sheets self), ok; simpl; split;
    try (left; reflexivity); right; eexists; repeat split.
Qed.

(** C10. A record whose confidence argument is [None] or zero is stored by
    [add_emotion_record] with confidence 0.5, on either backend, whenever
    the backend accepts the row (a rejected row leaves the store as it was
    and is reported as [False]); and no row of a store built by
    [add_emotion_record] has confidence zero. *)
Theorem falsy_confidence_stored_as_half
    (self : Memory.MemoryManager) (clk : Memory.clock) (emotion_label : str)
    (confidence : option Q) (message response session_id : option str)
    (s : Memory.store) :
  confidence = None \/ (exists q, confidence = Some q /\ (q == 0)%Q) ->
  (exists r,
      Memory.add_emotion_record self clk true emotion_label confidence
                                message response session_id s
      = (true,
         if Memory.use_sheets self
         then {| Memory.sqlite_rows := Memory.sqlite_rows s;
                 Memory.sheet_rows := Memory.sheet_rows s ++ [r] |}
         else {| Memory.sqlite_rows := Memory.sqlite_rows s ++ [r];
                 Memory.sheet_rows := Memory.sheet_rows s |})
      /\ Memory.confidence r = 1 # 2
      /\ Memory.user_id r = Memory.self_user_id self
      /\ Memory.emotion_label r = emotion_label
      /\ Memory.timestamp r = Memory.utcnow_isoformat clk)
  /\ Memory.add_emotion_record self clk false emotion_label confidence
                               message response session_id s = (false, s)
  /\ (forall s', Spec.reachable s' ->
                 Forall (fun r => ~ (Memory.confidence r == 0)%Q)
                        (Memory.sqlite_rows s' ++ Memory.sheet_rows s')).
Proof.
  intros Hfalsy. apply or_half_falsy in Hfalsy. split; [|split].
  - unfold Memory.add_emotion_record, Memory._add_to_sheets, Memory._add_to_sqlite.
    destruct (Memory.use_sheets self); eexists; (split; [reflexivity|]);
      simpl; repeat split; exact Hfalsy.
  - unfold Memory.add_emotion_record, Memory._add_to_sheets, Memory._add_to_sqlite.
    destruct (Memory.use_sheets self); reflexivity.
  - intros s' Hreach. induction Hreach as [|self' clk' ok lbl conf msg rsp sid s0 _ IH].
    + constructor.
    + apply Forall_app in IH. destruct IH as [IHq IHs].
      destruct (add_emotion_record_rows self' clk' ok lbl conf msg rsp sid s0)
        as [Hq Hs].
      apply Forall_app. split.
      * destruct Hq as [-> | (r & -> & _ & Hc)]; [exact IHq|].
        apply Forall_app. split; [exact IHq|].
        constructor; [|constructor]. rewrite Hc. apply or_half_nonzero.
      * destruct Hs as [-> | (r & -> & _ & Hc)]; [exact IHs|].
        apply Forall_app. split; [exact IHs|].
        constructor; [|constructor]. rewrite Hc. apply or_half_nonzero.
Qed.

Lemma falsy_confidence_stored_as_half_witness :
  let self := {| Memory.self_user_id := u "ann"; Memory.use_sheets := false |} in
  let clk := {| Memory.utcnow_isoformat := u "2024-05-03T09:30:00.000125";
                Memory.days_ago_isoformat := fun _ => u "2024-04-26T09:30:00.000125" |} in
  let s := {| Memory.sqlite_rows := []; Memory.sheet_rows := [] |} in
  (Some 0%Q = None \/ (exists q, Some 0%Q = Some q /\ (q == 0)%Q))
  /\ map Memory.confidence
         (Memory.sqlite_rows
            (Memory.add_emotion_record self clk true (u "neutral") (Some 0%Q)
                                       None None None s).2)
     = [1 # 2].
Proof.
  intros self clk s.
  assert (Some 0%Q = None \/ (exists q, Some 0%Q = Some q /\ (q == 0)%Q)) as Hfalsy
    by (right; exists 0%Q; split; reflexivity).
  split; [exact Hfalsy|].
  destruct (proj1 (falsy_confidence_stored_as_half
                     self clk (u "neutral") (Some 0%Q) None None None s Hfalsy))
    as (r & Hadd & Hc & _).
  rewrite Hadd. simpl. rewrite Hc. reflexivity.
Defined.

Lemma filter_filter_implied {A : Type} (P Q : A -> Prop)
    `{!forall x, Decision (P x)} `{!forall x, Decision (Q x)} (l : list A) :
  (forall x, Q x -> P x) -> filter Q (filter P l) = filter Q l.
Proof.
  intros HQP. induction l as [|a l IH]; [reflexivity|].
  rewrite (filter_cons P). destruct (decide (P a)) as [Hp | Hp].
  - rewrite !(filter_cons Q). destruct (decide (Q a)); rewrite IH; reflexivity.
  - rewrite (filter_cons Q). destruct (decide (Q a)) as [Hq|]; [|exact IH].
    exfalso. apply Hp, HQP, Hq.
Qed.

Lemma filter_snoc_out {A : Type} (P : A -> Prop) `{!forall x, Decision (P x)}
    (l : list A) (x : A) :
  ~ P x -> filter P (l ++ [x]) = filter P l.
Proof.
  intros Hx. rewrite filter_app, filter_cons.
  destruct (decide (P x)); [contradiction|]. apply app_nil_r.
Qed.

Lemma filter_map_commute {A B : Type} (f : A -> B) (P : B -> Prop)
    `{!forall y, Decision (P y)} (l : list A) :
  filter P (map f l) = map f (filter (fun x => P (f x)) l).
Proof.
  induction l as [|a l IH]; [reflexivity|].
  cbn [map]. rewrite !filter_cons. destruct (decide (P (f a))).
  - cbn [map]. rewrite IH. reflexivity.
  - exact IH.
Qed.

Lemma insert_desc_perm {A K : Type} (gt : K -> K -> bool) (key : A -> K)
    (x : A) (l : list A) :
  insert_desc gt key x l ≡ₚ x :: l.
Proof.
  induction l as [|y l IH]; simpl; [reflexivity|].
  destruct (gt (key y) (key x)); [|reflexivity].
  rewrite IH. apply perm_swap.
Qed.

Lemma sorted_desc_perm {A K : Type} (gt : K -> K -> bool) (key : A -> K)
    (l : list A) :
  sorted_desc gt key l ≡ₚ l.
Proof.
  induction l as [|x l IH]; [reflexivity|].
  unfold sorted_desc in *. cbn [foldr].
  rewrite insert_desc_perm, IH. reflexivity.
Qed.

Lemma in_take {A : Type} (x : A) (n : nat) (l : list A) :
  x ∈ take n l -> x ∈ l.
Proof.
  intros H. apply elem_of_take in H. destruct H as (i & Hi & _).
  apply list_elem_of_lookup. exists i. exact Hi.
Qed.

(** What the store hands out was read from rows of the manager's user. *)
Lemma recent_from_own_rows (self : Memory.MemoryManager) (limit : nat)
    (s : Memory.store) (o : Memory.emotion_record) :
  o ∈ Memory.get_recent_emotions self limit s ->
  exists r, r ∈ Spec.backend_rows self s
            /\ Memory.user_id r = Memory.self_user_id self
            /\ Memory.r_timestamp o = Memory.timestamp r
            /\ Memory.r_emotion o = Memory.emotion_label r
            /\ Memory.r_confidence o = Memory.confidence r.
Proof.
  unfold Memory.get_recent_emotions, Spec.backend_rows,
    Memory._get_from_sheets, Memory._get_from_sqlite.
  destruct (Memory.use_sheets self); intros H;
    apply list_elem_of_In, in_map_iff in H; destruct H as (r & <- & Hr);
    apply list_elem_of_In, in_take in Hr;
    rewrite sorted_desc_perm in Hr; apply list_elem_of_filter in Hr;
    destruct Hr as [Hu Hr]; exists r; repeat split; assumption.
Qed.

Lemma recent_own_rows (self : Memory.MemoryManager) (limit : nat) (s : Memory.store) :
  Memory.get_recent_emotions self limit (Spec.own_rows (Memory.self_user_id self) s)
  = Memory.get_recent_emotions self limit s.
Proof.
  unfold Memory.get_recent_emotions, Memory._get_from_sheets,
    Memory._get_from_sqlite, Spec.own_rows.
  destruct (Memory.use_sheets self); cbn [Memory.sheet_rows Memory.sqlite_rows];
    rewrite filter_filter_implied by auto; reflexivity.
Qed.

Lemma recent_records_own_rows (self : Memory.MemoryManager) (cutoff : str)
    (s : Memory.store) :
  Memory.recent_records self cutoff (Spec.own_rows (Memory.self_user_id self) s)
  = Memory.recent_records self cutoff s.
Proof.
  unfold Memory.recent_records, Memory._get_from_sheets, Spec.own_rows.
  destruct (Memory.use_sheets self); cbn [Memory.sheet_rows Memory.sqlite_rows].
  - rewrite filter_filter_implied by auto. reflexivity.
  - rewrite filter_filter_implied by (intros x [Hx _]; exact Hx). reflexivity.
Qed.

Lemma own_rows_add_other (self other : Memory.MemoryManager) (clk : Memory.clock)
    (ok : bool) (emotion_label : str) (confidence : option Q)
    (message response session_id : option str) (s : Memory.store) :
  Memory.self_user_id other <> Memory.self_user_id self ->
  Spec.own_rows (Memory.self_user_id self)
    (Memory.add_emotion_record other clk ok emotion_label confidence
                               message response session_id s).2
  = Spec.own_rows (Memory.self_user_id self) s.
Proof.
  intros Hne.
  destruct (add_emotion_record_rows other clk ok emotion_label confidence
              message response session_id s) as [Hq Hs].
  unfold Spec.own_rows. f_equal.
  - destruct Hq as [-> | (r & -> & Hu & _)]; [reflexivity|].
    apply filter_snoc_out. congruence.
  - destruct Hs as [-> | (r & -> & Hu & _)]; [reflexivity|].
    apply filter_snoc_out. congruence.
Qed.

(** The records analysed are the considered rows, read field by field. *)
Lemma recent_records_considered (self : Memory.MemoryManager) (cutoff : str)
    (s : Memory.store) :
  exists f : Memory.row -> Memory.emotion_record,
    (forall r, Memory.r_emotion (f r) = Memory.emotion_label r
               /\ Memory.r_confidence (f r) = Memory.confidence r)
    /\ Memory.recent_records self cutoff s = map f (Spec.considered self cutoff s).
Proof.
  unfold Memory.recent_records, Spec.considered, Memory._get_from_sheets.
  destruct (Memory.use_sheets self).
  - exists (fun r => {| Memory.r_timestamp := Memory.timestamp r;
                        Memory.r_emotion := Memory.emotion_label r;
                        Memory.r_confidence := Memory.confidence r;
                        Memory.r_message := Memory.or_empty (Memory.message_text r);
                        Memory.r_session_id := Memory.or_empty (Memory.session_id r) |}).
    split; [intros r; split; reflexivity|].
    rewrite filter_map_commute. reflexivity.
  - eexists. split; [|reflexivity]. intros r. split; reflexivity.
Qed.

Lemma considered_in_window (self : Memory.MemoryManager) (cutoff : str)
    (s : Memory.store) (r : Memory.row) :
  r ∈ Spec.considered self cutoff s ->
  r ∈ Spec.backend_rows self s /\ Spec.in_window self cutoff r.
Proof.
  unfold Spec.considered, Spec.backend_rows, Spec.in_window.
  destruct (Memory.use_sheets self); intros H.
  - apply list_elem_of_filter in H. destruct H as [Hts H].
    apply in_take in H. rewrite sorted_desc_perm in H.
    apply list_elem_of_filter in H. tauto.
  - rewrite sorted_desc_perm in H. apply list_elem_of_filter in H.
    unfold Spec.in_window in H. tauto.
Qed.

(** C9. For a manager of user U, every record [get_recent_emotions] returns
    is read from a row of U, every row [get_emotion_patterns] analyses is a
    row of U, and both outputs are functions of U's rows alone; so a record
    appended through a manager of another user, on either backend and
    whether or not the backend accepts it, leaves both outputs of U's
    manager as they were. *)
Theorem memory_views_isolated_per_user
    (self other : Memory.MemoryManager) (clk clk' : Memory.clock) (ok : bool)
    (emotion_label : str) (confidence : option Q)
    (message response session_id : option str)
    (limit : nat) (days : Z) (s : Memory.store) :
  Memory.self_user_id other <> Memory.self_user_id self ->
  let s' := (Memory.add_emotion_record other clk' ok emotion_label confidence
                                       message response session_id s).2 in
  (forall o, o ∈ Memory.get_recent_emotions self limit s ->
             exists r, r ∈ Spec.backend_rows self s
                       /\ Memory.user_id r = Memory.self_user_id self
                       /\ Memory.r_timestamp o = Memory.timestamp r
                       /\ Memory.r_emotion o = Memory.emotion_label r
                       /\ Memory.r_confidence o = Memory.confidence r)
  /\ (exists f : Memory.row -> Memory.emotion_record,
         (forall r, Memory.r_emotion (f r) = Memory.emotion_label r
                    /\ Memory.r_confidence (f r) = Memory.confidence r)
         /\ Memory.get_emotion_patterns self clk days s
            = Memory.analyse days
                (map f (Spec.considered self (Memory.days_ago_isoformat clk days) s)))
  /\ (forall r, r ∈ Spec.considered self (Memory.days_ago_isoformat clk days) s ->
                r ∈ Spec.backend_rows self s
                /\ Memory.user_id r = Memory.self_user_id self)
  /\ Memory.get_recent_emotions self limit s
     = Memory.get_recent_emotions self limit
         (Spec.own_rows (Memory.self_user_id self) s)
  /\ Memory.get_emotion_patterns self clk days s
     = Memory.get_emotion_patterns self clk days
         (Spec.own_rows (Memory.self_user_id self) s)
  /\ Memory.get_recent_emotions self limit s'
     = Memory.get_recent_emotions self limit s
  /\ Memory.get_emotion_patterns self clk days s'
     = Memory.get_emotion_patterns self clk days s.
Proof.
  intros Hne s'.
  assert (Spec.own_rows (Memory.self_user_id self) s'
          = Spec.own_rows (Memory.self_user_id self) s) as Hown
    by (apply own_rows_add_other; exact Hne).
  split; [apply recent_from_own_rows|].
  split.
  { destruct (recent_records_considered self (Memory.days_ago_isoformat clk days) s)
      as (f & Hf & Hrec).
    exists f. split; [exact Hf|].
    unfold Memory.get_emotion_patterns. rewrite Hrec. reflexivity. }
  split.
  { intros r Hr. apply considered_in_window in Hr.
    destruct Hr as [Hin [Hu _]]. split; assumption. }
  split; [symmetry; apply recent_own_rows|].
  split.
  { unfold Memory.get_emotion_patterns. rewrite recent_records_own_rows. reflexivity. }
  split.
  - rewrite <- (recent_own_rows self limit s'), Hown. apply recent_own_rows.
  - unfold Memory.get_emotion_patterns.
    rewrite <- (recent_records_own_rows self _ s'), Hown.
    rewrite recent_records_own_rows. reflexivity.
Qed.

Lemma memory_views_isolated_per_user_witness :
  let ann := {| Memory.self_user_id := u "ann"; Memory.use_sheets := false |} in
  let bob := {| Memory.self_user_id := u "bob"; Memory.use_sheets := false |} in
  let clk := {| Memory.utcnow_isoformat := u "2024-05-03T09:30:00";
                Memory.days_ago_isoformat := fun _ => u "2024-04-26T09:30:00" |} in
  let s0 := {| Memory.sqlite_rows := []; Memory.sheet_rows := [] |} in
  let s1 := (Memory.add_emotion_record ann clk true (u "positive-joy") (Some (9 # 10))
                                       (Some (u "what a day")) None None s0).2 in
  let s2 := (Memory.add_emotion_record bob clk true (u "negative-fear") None
                                       None None None s1).2 in
  Memory.self_user_id bob <> Memory.self_user_id ann
  /\ Memory.get_recent_emotions ann 5 s2 = Memory.get_recent_emotions ann 5 s1
  /\ Memory.get_emotion_patterns ann clk 7 s2 = Memory.get_emotion_patterns ann clk 7 s1.
Proof.
  intros ann bob clk s0 s1 s2.
  assert (Memory.self_user_id bob <> Memory.self_user_id ann) as Hne
    by (vm_compute; discriminate).
  split; [exact Hne|].
  destruct (memory_views_isolated_per_user
              ann bob clk clk true (u "negative-fear") None None None None
              5%nat 7%Z s1 Hne) as (_ & _ & _ & _ & _ & Hrecent & Hpatterns).
  split; [exact Hrecent | exact Hpatterns].
Defined.

(** *** Pattern analysis *)

(** C6. [get_emotion_patterns] is to consider every record of the user
    inside the window, as its SQLite branch does.  Its worksheet branch
    reads the rows through [_get_from_sheets(1000)] before it filters by
    date: of 1001 rows of the user inside the window it counts 1000. *)
Lemma worksheet_patterns_count_at_most_1000_rows :
  let ann := {| Memory.self_user_id := u "ann"; Memory.use_sheets := true |} in
  let clk := {| Memory.utcnow_isoformat := u "2024-05-03T09:30:00";
                Memory.days_ago_isoformat := fun _ => u "2024-04-26T09:30:00" |} in
  let r := {| Memory.user_id := u "ann"; Memory.timestamp := u "2024-05-01T08:00:00";
              Memory.emotion_label := u "positive-joy"; Memory.confidence := 4 # 5;
              Memory.message_text := Some []; Memory.response_text := Some [];
              Memory.session_id := Some [] |} in
  let s := {| Memory.sqlite_rows := []; Memory.sheet_rows := repeat r 1001 |} in
  length (filter (Spec.in_window ann (Memory.days_ago_isoformat clk 7))
                 (Spec.backend_rows ann s)) = 1001%nat
  /\ Memory.total_entries (Memory.get_emotion_patterns ann clk 7 s) = 1000%nat.
Proof. vm_compute. split; reflexivity. Qed.

Example patterns_two_labels :
  let mk label conf :=
    {| Memory.r_timestamp := u "2024-05-01T08:00:00"; Memory.r_emotion := label;
       Memory.r_confidence := conf; Memory.r_message := []; Memory.r_session_id := [] |} in
  Memory.frequency
    <$> Memory.patterns
          (Memory.analyse 7 [ mk (u "positive-joy") (4 # 5); mk (u "negative-fear") (1 # 2);
                              mk (u "positive-joy") (7 # 10) ])
  = {[ u "positive-joy" := 2%nat; u "negative-fear" := 1%nat ]}.
Proof. vm_compute. reflexivity. Qed.

(** * Further properties of the pipeline *)

(** ** Ordering *)

Lemma insert_desc_descending {A K : Type} (gt : K -> K -> bool) (key : A -> K)
    (x : A) (l : list A) :
  (forall a b, gt a b = true -> gt b a = false) ->
  (forall a b c, gt a b = false -> gt b c = false -> gt a c = false) ->
  Spec.descending gt key l -> Spec.descending gt key (insert_desc gt key x l).
Proof.
  intros Hasym Htrans. unfold Spec.descending.
  induction l as [|y t IH]; intros Hs; simpl.
  - constructor; constructor.
  - apply StronglySorted_inv in Hs. destruct Hs as [Ht Hy].
    destruct (gt (key y) (key x)) eqn:E.
    + constructor; [apply IH; exact Ht|].
      rewrite insert_desc_perm. constructor; [apply Hasym; exact E | exact Hy].
    + constructor; [constructor; assumption|].
      constructor; [exact E|].
      eapply Forall_impl; [exact Hy|]. intros z Hz. simpl in Hz.
      exact (Htrans _ _ _ Hz E).
Qed.

Lemma sorted_desc_descending {A K : Type} (gt : K -> K -> bool) (key : A -> K)
    (l : list A) :
  (forall a b, gt a b = true -> gt b a = false) ->
  (forall a b c, gt a b = false -> gt b c = false -> gt a c = false) ->
  Spec.descending gt key (sorted_desc gt key l).
Proof.
  intros Hasym Htrans. induction l as [|x l IH].
  - constructor.
  - unfold sorted_desc in *. cbn [foldr].
    apply insert_desc_descending; assumption.
Qed.

Lemma fgtb_asym (a b : Q) : fgtb a b = true -> fgtb b a = false.
Proof.
  intros H. apply fgtb_lt in H. apply fgtb_not_lt. intros H'.
  exact (Qlt_irrefl _ (Qlt_trans _ _ _ H H')).
Qed.

Lemma fgtb_negtrans (a b c : Q) :
  fgtb a b = false -> fgtb b c = false -> fgtb a c = false.
Proof.
  intros H1 H2. apply fgtb_not_lt in H1, H2. apply fgtb_not_lt.
  apply Qnot_lt_le in H1, H2. apply Qle_not_lt.
  exact (Qle_trans _ _ _ H1 H2).
Qed.





(** ** Emotion classifier, beyond the short-text rule *)

Lemma truncate_512 (text : str) :
  (if (512 <? len text)%Z then take 512 text else text) = take 512 text.
Proof.
  destruct (512 <? len text)%Z eqn:E; [reflexivity|].
  apply Z.ltb_ge in E. unfold len in E. symmetry. apply take_ge. lia.
Qed.

(** X1. [detect_emotion] hands a text to the pipeline at most once: never
    for a text it treats as too short, and otherwise once, the first 512
    characters of the text. *)
Theorem detect_emotion_calls_pipeline_once_truncated
    (pipeline : Emotion.pipeline_t) (text : str) (min_length : Z) :
  (Emotion.detect_emotion pipeline text min_length).2
  = (if is_empty text || (len (strip text) <? min_length)%Z
     then [] else [take 512 text])
  /\ Forall (fun t => (len t <= 512)%Z)
            (Emotion.detect_emotion pipeline text min_length).2.
Proof.
  assert ((Emotion.detect_emotion pipeline text min_length).2
          = (if is_empty text || (len (strip text) <? min_length)%Z
             then [] else [take 512 text])) as H.
  { unfold Emotion.detect_emotion.
    destruct (is_empty text || (len (strip text) <? min_length)%Z); [reflexivity|].
    rewrite truncate_512.
    destruct (pipeline (take 512 text)) as [[|first rest]|]; try reflexivity.
    destruct (sorted_desc fgtb Emotion.s_score first); reflexivity. }
  split; [exact H|]. rewrite H.
  destruct (is_empty text || (len (strip text) <? min_length)%Z); constructor;
    [|constructor].
  unfold len. rewrite length_take. lia.
Qed.

(** X2. When the pipeline raises, hands back no result list or an empty
    list of scores, [detect_emotion] returns the default neutral result
    instead of failing. *)
Theorem detect_emotion_swallows_pipeline_failure
    (pipeline : Emotion.pipeline_t) (text : str) (min_length : Z) :
  pipeline (take 512 text) = Raised
  \/ pipeline (take 512 text) = Returned []
  \/ (exists rest, pipeline (take 512 text) = Returned ([] :: rest)) ->
  (Emotion.detect_emotion pipeline text min_length).1 = Emotion._default_result.
Proof.
  intros H. unfold Emotion.detect_emotion.
  destruct (is_empty text || (len (strip text) <? min_length)%Z); [reflexivity|].
  rewrite truncate_512.
  destruct H as [-> | [-> | (rest & ->)]]; reflexivity.
Qed.

Lemma detect_emotion_swallows_pipeline_failure_witness :
  (Emotion.detect_emotion (fun _ => Raised) (u "I am so happy today!") 5).1
  = Emotion._default_result.
Proof.
  apply (detect_emotion_swallows_pipeline_failure
           (fun _ => Raised) (u "I am so happy today!") 5).
  left. reflexivity.
Defined.

(** X3. For a text that is long enough and a pipeline that hands back a
    non-empty list of scores, [all_scores] holds the same scores, rounded to
    three decimals, in descending order of score, and [label] and
    [confidence] are those of a score that no other score exceeds. *)
Theorem detect_emotion_reports_top_score
    (pipeline : Emotion.pipeline_t) (text : str) (min_length : Z)
    (first : list Emotion.scored) (rest : list (list Emotion.scored)) :
  is_empty text || (len (strip text) <? min_length)%Z = false ->
  pipeline (take 512 text) = Returned (first :: rest) ->
  first <> [] ->
  let r := (Emotion.detect_emotion pipeline text min_length).1 in
  exists top sorted,
    top :: sorted ≡ₚ first
    /\ Spec.descending fgtb Emotion.s_score (top :: sorted)
    /\ Forall (fun x => (Emotion.s_score x <= Emotion.s_score top)%Q) first
    /\ Emotion.label r = Emotion.s_label top
    /\ Emotion.confidence r = round (Emotion.s_score top) 3
    /\ Emotion.all_scores r
       = map (fun x => {| Emotion.s_label := Emotion.s_label x;
                          Emotion.s_score := round (Emotion.s_score x) 3 |})
             (top :: sorted).
Proof.
  intros Hlong Hpipe Hne r. subst r. unfold Emotion.detect_emotion.
  rewrite Hlong, truncate_512, Hpipe.
  pose proof (sorted_desc_perm fgtb Emotion.s_score first) as Hperm.
  pose proof (sorted_desc_descending fgtb Emotion.s_score first
                fgtb_asym fgtb_negtrans) as Hsorted.
  destruct (sorted_desc fgtb Emotion.s_score first) as [|top sorted].
  { apply Permutation_nil in Hperm. congruence. }
  exists top, sorted. split; [exact Hperm|]. split; [exact Hsorted|].
  split; [|repeat split].
  rewrite <- Hperm. unfold Spec.descending in Hsorted.
  apply StronglySorted_inv in Hsorted. destruct Hsorted as [_ Htop].
  constructor; [apply Qle_refl|].
  eapply Forall_impl; [exact Htop|]. intros x Hx. simpl in Hx.
  apply fgtb_not_lt in Hx. apply Qnot_lt_le. exact Hx.
Qed.

Lemma detect_emotion_reports_top_score_witness :
  let scores := [ {| Emotion.s_label := u "sadness"; Emotion.s_score := 1 # 20 |};
                  {| Emotion.s_label := u "joy"; Emotion.s_score := 9123 # 10000 |};
                  {| Emotion.s_label := u "surprise"; Emotion.s_score := 3 # 100 |} ] in
  let r := (Emotion.detect_emotion (fun _ => Returned [scores])
                                   (u "I am so happy today!") 5).1 in
  exists top sorted,
    top :: sorted ≡ₚ scores
    /\ Spec.descending fgtb Emotion.s_score (top :: sorted)
    /\ Forall (fun x => (Emotion.s_score x <= Emotion.s_score top)%Q) scores
    /\ Emotion.label r = Emotion.s_label top
    /\ Emotion.confidence r = round (Emotion.s_score top) 3
    /\ Emotion.all_scores r
       = map (fun x => {| Emotion.s_label := Emotion.s_label x;
                          Emotion.s_score := round (Emotion.s_score x) 3 |})
             (top :: sorted).
Proof.
  intros scores r.
  apply (detect_emotion_reports_top_score
           (fun _ => Returned [scores]) (u "I am so happy today!") 5 scores []).
  - reflexivity.
  - reflexivity.
  - discriminate.
Defined.

Example detect_emotion_joy :
  let scores := [ {| Emotion.s_label := u "sadness"; Emotion.s_score := 1 # 20 |};
                  {| Emotion.s_label := u "joy"; Emotion.s_score := 9123 # 10000 |};
                  {| Emotion.s_label := u "surprise"; Emotion.s_score := 3 # 100 |} ] in
  let r := (Emotion.detect_emotion (fun _ => Returned [scores])
                                   (u "I am so happy today!") 5).1 in
  Emotion.label r = u "joy" /\ Emotion.confidence r = 114 # 125
  /\ map Emotion.s_label (Emotion.all_scores r) = [u "joy"; u "sadness"; u "surprise"].
Proof. vm_compute. repeat split; reflexivity. Qed.

(** ** Sentiment fuser, beyond the combination rule *)

(** X4. The combined label is always the label of one of the two scorers,
    and when the two labels agree it is that label whatever the
    confidences are. *)
Theorem combine_sentiments_picks_a_scorer_label (base nuanced : Fusion.sentiment) :
  let base_label := default (u "neutral") (Fusion.label base) in
  let nuanced_label := default (u "neutral") (Fusion.label nuanced) in
  (Fusion._combine_sentiments base nuanced = base_label
   \/ Fusion._combine_sentiments base nuanced = nuanced_label)
  /\ (base_label = nuanced_label ->
      Fusion._combine_sentiments base nuanced = base_label).
Proof.
  intros base_label nuanced_label. unfold Fusion._combine_sentiments.
  fold base_label. fold nuanced_label.
  destruct (fgtb _ (4 # 5)); [split; [left; reflexivity | reflexivity]|].
  destruct (fgtb _ (4 # 5));
    [split; [right; reflexivity | intros ->; reflexivity]|].
  destruct (PyStr.eqb base_label nuanced_label) eqn:E;
    [split; [left; reflexivity | reflexivity]|].
  apply eqb_neq in E.
  destruct (fgeb _ _); split; try (left; reflexivity); try (right; reflexivity);
    intros H; congruence.
Qed.

Lemma no_score_base (self : Fusion.SentimentFusion) (text : str) :
  Spec.no_score (Fusion.base_model self) text ->
  (Fusion._get_base_sentiment self text).1 = Fusion.neutral_half.
Proof.
  unfold Spec.no_score, Fusion._get_base_sentiment.
  destruct (Fusion.base_model self) as [m|]; [|reflexivity].
  intros [-> | ->]; reflexivity.
Qed.

Lemma no_score_nuanced (self : Fusion.SentimentFusion) (text : str) :
  Spec.no_score (Fusion.nuanced_model self) text ->
  (Fusion._get_nuanced_sentiment self text).1 = Fusion.neutral_half.
Proof.
  unfold Spec.no_score, Fusion._get_nuanced_sentiment.
  destruct (Fusion.nuanced_model self) as [m|]; [|reflexivity].
  intros [-> | ->]; reflexivity.
Qed.

Lemma combine_with_failed_base (nuanced_label : str) (nuanced_conf : Q) :
  Fusion._combine_sentiments
    Fusion.neutral_half
    {| Fusion.label := Some nuanced_label; Fusion.confidence := Some nuanced_conf |}
  = if fgtb nuanced_conf (1 # 2) then nuanced_label else u "neutral".
Proof.
  unfold Fusion._combine_sentiments, Fusion.neutral_half.
  cbn [Fusion.label Fusion.confidence default from_option id].
  change (fgtb (1 # 2) (4 # 5)) with false. cbv iota.
  destruct (fgtb nuanced_conf (4 # 5)) eqn:E1.
  { apply fgtb_lt in E1.
    assert (fgtb nuanced_conf (1 # 2) = true) as -> by (apply fgtb_lt; lra).
    reflexivity. }
  destruct (PyStr.eqb (u "neutral") nuanced_label) eqn:E2.
  { apply eqb_eq in E2. subst nuanced_label.
    destruct (fgtb nuanced_conf (1 # 2)); reflexivity. }
  destruct (fgeb (1 # 2) nuanced_conf) eqn:E3.
  - apply fgeb_le in E3.
    assert (fgtb nuanced_conf (1 # 2) = false) as -> by (apply fgtb_not_lt; lra).
    reflexivity.
  - apply fgeb_not_le in E3.
    assert (fgtb nuanced_conf (1 # 2) = true) as -> by (apply fgtb_lt; lra).
    reflexivity.
Qed.

Lemma combine_with_failed_nuanced (base_label : str) (base_conf : Q) :
  Fusion._combine_sentiments
    {| Fusion.label := Some base_label; Fusion.confidence := Some base_conf |}
    Fusion.neutral_half
  = if fgeb base_conf (1 # 2) then base_label else u "neutral".
Proof.
  unfold Fusion._combine_sentiments, Fusion.neutral_half.
  cbn [Fusion.label Fusion.confidence default from_option id].
  change (fgtb (1 # 2) (4 # 5)) with false. cbv iota.
  destruct (fgtb base_conf (4 # 5)) eqn:E1.
  { apply fgtb_lt in E1.
    assert (fgeb base_conf (1 # 2) = true) as -> by (apply fgeb_le; lra).
    reflexivity. }
  destruct (PyStr.eqb base_label (u "neutral")) eqn:E2.
  { apply eqb_eq in E2. subst base_label.
    destruct (fgeb base_conf (1 # 2)); reflexivity. }
  reflexivity.
Qed.

(** X5. For a text under three characters after trimming, no sentiment
    pipeline is invoked; for such a text, and for any text on which both
    pipelines are missing or fail, the fused label is "neutral-<emotion>",
    or "neutral" when no emotion label is supplied. *)
Theorem fuse_is_neutral_without_scores
    (fusion : Fusion.SentimentFusion) (text : str) (emotion_label : option str) :
  is_empty text || (len (strip text) <? 3)%Z = true
  \/ (Spec.no_score (Fusion.base_model fusion) (take 512 text)
      /\ Spec.no_score (Fusion.nuanced_model fusion) (take 512 text)) ->
  Fusion.fuse_sentiment_emotion fusion text emotion_label
  = match emotion_label with
    | Some ((_ :: _) as l) => u "neutral-" ++ l
    | _ => u "neutral"
    end
  /\ (is_empty text || (len (strip text) <? 3)%Z = true ->
      Fusion.analyze_sentiment fusion text = (Fusion._default_sentiment, [])).
Proof.
  intros H.
  assert (Fusion.combined_label (Fusion.analyze_sentiment fusion text).1
          = u "neutral") as Hc.
  { unfold Fusion.analyze_sentiment.
    destruct (is_empty text || (len (strip text) <? 3)%Z) eqn:E; [reflexivity|].
    destruct H as [H | [Hb Hn]]; [discriminate|].
    rewrite truncate_512. cbn [fst Fusion.combined_label].
    rewrite (no_score_base _ _ Hb), (no_score_nuanced _ _ Hn). reflexivity. }
  split.
  - unfold Fusion.fuse_sentiment_emotion. rewrite Hc.
    destruct emotion_label as [[|x l]|]; reflexivity.
  - intros Hs. unfold Fusion.analyze_sentiment. rewrite Hs. reflexivity.
Qed.

Lemma fuse_is_neutral_without_scores_witness :
  Fusion.fuse_sentiment_emotion
    {| Fusion.base_model := Some (fun _ => Raised); Fusion.nuanced_model := None |}
    (u "I am so happy today!") (Some (u "joy"))
  = u "neutral-joy".
Proof.
  refine (proj1 (fuse_is_neutral_without_scores
                   {| Fusion.base_model := Some (fun _ => Raised);
                      Fusion.nuanced_model := None |}
                   (u "I am so happy today!") (Some (u "joy")) _)).
  right. split; [left; reflexivity | exact I].
Defined.

(** X6. With one scorer missing or failing on a text that is long enough,
    the other scorer decides alone: the nuanced label wins exactly when its
    rounded confidence is above 0.5, the base label exactly when its rounded
    confidence is at least 0.5, and the polarity is "neutral" otherwise. *)
Theorem single_scorer_decides_above_half
    (fusion : Fusion.SentimentFusion) (text : str) (m : Fusion.model_t)
    (result : Fusion.raw) (others : list Fusion.raw) :
  is_empty text || (len (strip text) <? 3)%Z = false ->
  m (take 512 text) = Returned (result :: others) ->
  (Spec.no_score (Fusion.base_model fusion) (take 512 text) ->
   Fusion.nuanced_model fusion = Some m ->
   Fusion.combined_label (Fusion.analyze_sentiment fusion text).1
   = if fgtb (round (Fusion.raw_score result) 3) (1 # 2)
     then default (lower (Fusion.raw_label result))
                  (dict_get Fusion.label_mapping (Fusion.raw_label result))
     else u "neutral")
  /\ (Spec.no_score (Fusion.nuanced_model fusion) (take 512 text) ->
      Fusion.base_model fusion = Some m ->
      Fusion.combined_label (Fusion.analyze_sentiment fusion text).1
      = if fgeb (round (Fusion.raw_score result) 3) (1 # 2)
        then lower (Fusion.raw_label result)
        else u "neutral").
Proof.
  intros Hlong Hm. split; intros Hfail Hmodel;
    unfold Fusion.analyze_sentiment; rewrite Hlong, truncate_512;
    cbn [fst Fusion.combined_label].
  - rewrite (no_score_base _ _ Hfail).
    unfold Fusion._get_nuanced_sentiment. rewrite Hmodel, Hm. cbn [fst].
    apply combine_with_failed_base.
  - rewrite (no_score_nuanced _ _ Hfail).
    unfold Fusion._get_base_sentiment. rewrite Hmodel, Hm. cbn [fst].
    apply combine_with_failed_nuanced.
Qed.

Lemma single_scorer_decides_above_half_witness :
  let m : Fusion.model_t :=
    fun _ => Returned [ {| Fusion.raw_label := u "LABEL_2";
                           Fusion.raw_score := 6124 # 10000 |} ] in
  Fusion.combined_label
    (Fusion.analyze_sentiment
       {| Fusion.base_model := None; Fusion.nuanced_model := Some m |}
       (u "I am so happy today!")).1
  = u "positive".
Proof.
  intros m.
  refine (proj1 (single_scorer_decides_above_half
                   {| Fusion.base_model := None; Fusion.nuanced_model := Some m |}
                   (u "I am so happy today!") m
                   {| Fusion.raw_label := u "LABEL_2";
                      Fusion.raw_score := 6124 # 10000 |} [] _ _) _ _);
    reflexivity || exact I.
Defined.

(** ** Fused labels and the primary emotion *)

Lemma lower_cp_lower (c : N) : lower (lower_cp c) = lower_cp c.
Proof.
  unfold lower_cp.
  destruct ((65 <=? c) && (c <=? 90)) eqn:E1.
  { apply andb_true_iff in E1. destruct E1 as [H1 H2].
    apply N.leb_le in H1, H2. unfold lower. cbn [flat_map]. rewrite app_nil_r.
    unfold lower_cp.
    replace ((65 <=? c + 32) && (c + 32 <=? 90)) with false
      by (symmetry; apply andb_false_iff; right; apply N.leb_gt; lia).
    replace ((192 <=? c + 32) && (c + 32 <=? 222) && negb (c + 32 =? 215)) with false
      by (symmetry; apply andb_false_iff; left; apply andb_false_iff; left;
          apply N.leb_gt; lia).
    replace (c + 32 =? 304) with false by (symmetry; apply N.eqb_neq; lia).
    replace (c + 32 =? 338) with false by (symmetry; apply N.eqb_neq; lia).
    replace (c + 32 =? 376) with false by (symmetry; apply N.eqb_neq; lia).
    replace (c + 32 =? 8490) with false by (symmetry; apply N.eqb_neq; lia).
    reflexivity. }
  destruct ((192 <=? c) && (c <=? 222) && negb (c =? 215)) eqn:E2.
  { apply andb_true_iff in E2. destruct E2 as [E2 _].
    apply andb_true_iff in E2. destruct E2 as [H1 H2].
    apply N.leb_le in H1, H2. unfold lower. cbn [flat_map]. rewrite app_nil_r.
    unfold lower_cp.
    replace ((65 <=? c + 32) && (c + 32 <=? 90)) with false
      by (symmetry; apply andb_false_iff; right; apply N.leb_gt; lia).
    replace ((192 <=? c + 32) && (c + 32 <=? 222) && negb (c + 32 =? 215)) with false
      by (symmetry; apply andb_false_iff; left; apply andb_false_iff; right;
          apply N.leb_gt; lia).
    replace (c + 32 =? 304) with false by (symmetry; apply N.eqb_neq; lia).
    replace (c + 32 =? 338) with false by (symmetry; apply N.eqb_neq; lia).
    replace (c + 32 =? 376) with false by (symmetry; apply N.eqb_neq; lia).
    replace (c + 32 =? 8490) with false by (symmetry; apply N.eqb_neq; lia).
    reflexivity. }
  destruct (c =? 304) eqn:E3; [reflexivity|].
  destruct (c =? 338) eqn:E4; [reflexivity|].
  destruct (c =? 376) eqn:E5; [reflexivity|].
  destruct (c =? 8490) eqn:E6; [reflexivity|].
  unfold lower. cbn [flat_map]. rewrite app_nil_r. unfold lower_cp.
  rewrite E1, E2, E3, E4, E5, E6. reflexivity.
Qed.

Lemma lower_lower (s : str) : lower (lower s) = lower s.
Proof.
  induction s as [|c s IH]; [reflexivity|].
  change (lower (c :: s)) with (lower_cp c ++ lower s).
  rewrite lower_app, IH, lower_cp_lower. reflexivity.
Qed.

Lemma last_app_nonempty {A : Type} (pre l : list A) (d : A) :
  l <> [] -> List.last (pre ++ l) d = List.last l d.
Proof.
  intros Hl. induction pre as [|a pre IH]; [reflexivity|].
  cbn [app]. destruct (pre ++ l) eqn:E.
  - apply app_eq_nil in E. destruct E as [_ E]. congruence.
  - rewrite <- E, <- IH. rewrite E. reflexivity.
Qed.

Lemma split_go_single_append (x : N) (a e cur : str) :
  exists pre,
    pre <> [] /\ split_go [x] (a ++ x :: e) cur 0 = pre ++ split_go [x] e [] 0.
Proof.
  revert cur; induction a as [|c a IH]; intros cur.
  - exists [rev cur]. split; [discriminate|].
    cbn [app split_go startswith]. rewrite N.eqb_refl. reflexivity.
  - cbn [app split_go startswith]. destruct (x =? c).
    + cbn [andb length Nat.sub].
      destruct (IH []) as (pre & Hpre & ->).
      exists (rev cur :: pre). split; [discriminate | reflexivity].
    + cbn [andb]. apply IH.
Qed.

Lemma emotion_part_is_last (parts : list str) :
  parts <> [] ->
  (if (1 <? length parts)%nat then last_part parts else List.hd [] parts)
  = last_part parts.
Proof.
  intros Hne. destruct parts as [|p [|q parts]]; [congruence | reflexivity | reflexivity].
Qed.

Lemma extract_primary_emotion_last (fused_emotion : str) :
  Synth._extract_primary_emotion fused_emotion
  = default (u "neutral")
            (dict_get Synth.emotion_mapping
                      (last_part (split (u "-") (lower fused_emotion)))).
Proof.
  unfold Synth._extract_primary_emotion.
  destruct fused_emotion as [|c s]; [reflexivity|].
  cbn [is_empty]. rewrite emotion_part_is_last; [reflexivity|].
  apply split_go_nonempty.
Qed.

Lemma primary_emotion_ignores_polarity_core (polarity emotion : str) :
  Synth._extract_primary_emotion (polarity ++ u "-" ++ emotion)
  = Synth._extract_primary_emotion emotion.
Proof.
  rewrite !extract_primary_emotion_last. rewrite !lower_app.
  change (u "-") with [45]. change (lower [45]) with [45].
  unfold split. cbn [app].
  destruct (split_go_single_append 45 (lower polarity) (lower emotion) [])
    as (pre & _ & ->).
  unfold last_part. rewrite last_app_nonempty by apply split_go_nonempty.
  reflexivity.
Qed.

(** X7. The primary emotion of a fused label "<polarity>-<emotion>" is the
    primary emotion of the emotion label alone, whatever the polarity; and
    it is looked up without regard to letter case. *)
Theorem primary_emotion_ignores_polarity (polarity emotion : str) :
  Synth._extract_primary_emotion (polarity ++ u "-" ++ emotion)
  = Synth._extract_primary_emotion emotion
  /\ Synth._extract_primary_emotion (lower emotion)
     = Synth._extract_primary_emotion emotion.
Proof.
  split; [apply primary_emotion_ignores_polarity_core|].
  rewrite !extract_primary_emotion_last. rewrite lower_lower. reflexivity.
Qed.

Example primary_emotion_of_fused_labels :
  Synth._extract_primary_emotion (u "negative-Sadness") = u "sadness"
  /\ Synth._extract_primary_emotion (u "positive-optimism") = u "joy"
  /\ Synth._extract_primary_emotion (u "neutral-surprise") = u "neutral"
  /\ Synth._extract_primary_emotion (u "mixed-up-anxiety") = u "fear"
  /\ Synth._extract_primary_emotion (u "positive") = u "neutral".
Proof. vm_compute. repeat split; reflexivity. Qed.

(** X8. With an emotion label supplied, the fused label is a polarity, a
    hyphen and that label: it is not empty, and the synthesizer recovers
    from it the primary emotion of the emotion label. *)
Theorem fused_label_carries_the_emotion
    (fusion : Fusion.SentimentFusion) (text emotion_label : str) :
  emotion_label <> [] ->
  let fused := Fusion.fuse_sentiment_emotion fusion text (Some emotion_label) in
  (exists polarity, fused = polarity ++ u "-" ++ emotion_label)
  /\ fused <> []
  /\ Synth._extract_primary_emotion fused
     = Synth._extract_primary_emotion emotion_label.
Proof.
  intros Hne fused. subst fused. unfold Fusion.fuse_sentiment_emotion.
  destruct emotion_label as [|c l]; [congruence|].
  split; [eexists; reflexivity|]. split.
  - intros H. apply app_eq_nil in H. destruct H as [_ H]. discriminate H.
  - apply primary_emotion_ignores_polarity_core.
Qed.

Lemma fused_label_carries_the_emotion_witness :
  let fusion :=
    {| Fusion.base_model :=
         Some (fun _ => Returned [ {| Fusion.raw_label := u "POSITIVE";
                                      Fusion.raw_score := 9987 # 10000 |} ]);
       Fusion.nuanced_model := None |} in
  let fused :=
    Fusion.fuse_sentiment_emotion fusion (u "I am so happy today!") (Some (u "joy")) in
  fused = u "positive-joy"
  /\ Synth._extract_primary_emotion fused = Synth._extract_primary_emotion (u "joy").
Proof.
  intros fusion fused. split; [reflexivity|].
  refine (proj2 (proj2 (fused_label_carries_the_emotion
                          fusion (u "I am so happy today!") (u "joy") _))).
  discriminate.
Defined.

(** ** Generation client: pacing, bounded retry, outcomes *)

Lemma fltb_lt (a b : Q) : fltb a b = true <-> (a < b)%Q.
Proof. exact (fgtb_lt b a). Qed.

Lemma fltb_not_lt (a b : Q) : fltb a b = false <-> ~ (a < b)%Q.
Proof. exact (fgtb_not_lt b a). Qed.

Lemma rate_gate_spaces_requests_core (c : Gemini.GeminiClient) (now : Q) :
  (Gemini._enforce_rate_limit c now).2 = []
  \/ exists d, (Gemini._enforce_rate_limit c now).2 = [Gemini.Sleep d] /\ (0 < d)%Q.
Proof.
  unfold Gemini._enforce_rate_limit.
  destruct (fltb (fsub now (Gemini.last_request_time c))
                 (Gemini.min_request_interval c)) eqn:E; cbn [snd].
  - right. eexists. split; [reflexivity|].
    apply fltb_lt in E. unfold fsub in *. rewrite Qred_correct in E.
    rewrite !Qred_correct. lra.
  - left. reflexivity.
Qed.

(** X9. The rate gate: after [_enforce_rate_limit] the recorded request
    time is at least the minimum interval after the previous one and not
    before the current time; the gate sleeps at most once, for a positive
    time that does not exceed the interval when the clock has not run
    backwards; the model and the interval are left as they were. *)
Theorem rate_gate_spaces_requests (c : Gemini.GeminiClient) (now : Q) :
  let gate := Gemini._enforce_rate_limit c now in
  (Gemini.last_request_time c + Gemini.min_request_interval c
   <= Gemini.last_request_time gate.1)%Q
  /\ (now <= Gemini.last_request_time gate.1)%Q
  /\ (gate.2 = []
      \/ exists d, gate.2 = [Gemini.Sleep d] /\ (0 < d)%Q
                   /\ ((Gemini.last_request_time c <= now)%Q ->
                       (d <= Gemini.min_request_interval c)%Q))
  /\ Gemini.model gate.1 = Gemini.model c
  /\ Gemini.min_request_interval gate.1 = Gemini.min_request_interval c.
Proof.
  intros gate. subst gate. unfold Gemini._enforce_rate_limit.
  destruct (fltb (fsub now (Gemini.last_request_time c))
                 (Gemini.min_request_interval c)) eqn:E;
    cbn [fst snd Gemini.last_request_time Gemini.model Gemini.min_request_interval].
  - apply fltb_lt in E. unfold fsub, fadd in *.
    rewrite Qred_correct in E.
    split; [rewrite !Qred_correct; lra|].
    split; [rewrite !Qred_correct; lra|].
    split; [|split; reflexivity].
    right. eexists. split; [reflexivity|].
    split; [rewrite !Qred_correct; lra|].
    intros Hclock. rewrite !Qred_correct. lra.
  - apply fltb_not_lt in E. unfold fsub in E. rewrite Qred_correct in E.
    split; [lra|]. split; [lra|]. split; [left; reflexivity|].
    split; reflexivity.
Qed.

Example rate_gate_waits_for_the_rest :
  Gemini._enforce_rate_limit
    {| Gemini.model := None; Gemini.last_request_time := 10;
       Gemini.min_request_interval := 1 |} (41 # 4)
  = ({| Gemini.model := None; Gemini.last_request_time := 11;
        Gemini.min_request_interval := 1 |}, [Gemini.Sleep (3 # 4)]).
Proof. reflexivity. Qed.

Lemma remote_calls_app (a b : list Gemini.event) :
  Spec.remote_calls (a ++ b) = (Spec.remote_calls a + Spec.remote_calls b)%nat.
Proof.
  unfold Spec.remote_calls. induction a as [|e a IH]; [reflexivity|].
  cbn [app foldr]. rewrite IH. destruct e; reflexivity.
Qed.

Lemma rate_gate_no_remote_call (c : Gemini.GeminiClient) (now : Q) :
  Spec.remote_calls (Gemini._enforce_rate_limit c now).2 = 0%nat.
Proof.
  unfold Gemini._enforce_rate_limit. destruct (fltb _ _); reflexivity.
Qed.

Lemma attempt_loop_remote_calls (b : Gemini.backend) (prompt : str)
    (temperature : Q) (max_retries : Z) (todo attempt : nat) :
  (Spec.remote_calls
     (Gemini.attempt_loop b prompt temperature max_retries todo attempt).2 <= todo)%nat
  /\ ((0 < todo)%nat ->
      (1 <= Spec.remote_calls
              (Gemini.attempt_loop b prompt temperature max_retries todo attempt).2)%nat).
Proof.
  revert attempt; induction todo as [|todo IH]; intros attempt.
  - split; [reflexivity | lia].
  - destruct (IH (S attempt)) as [Hle _]. cbn [Gemini.attempt_loop].
    destruct (b prompt temperature attempt) as [text| |].
    + destruct (negb (is_empty text)); cbn [snd]; unfold Spec.remote_calls in *;
        cbn [foldr]; split; lia.
    + cbn [snd]. unfold Spec.remote_calls in *. cbn [foldr]. split; lia.
    + destruct (Z.of_nat attempt <? max_retries - 1)%Z; cbn [snd app];
        unfold Spec.remote_calls in *; cbn [foldr]; split; lia.
Qed.

(** X10. Bounded retry: one call of [generate_response] calls the remote
    model at most [max_retries] times, not at all when no model is
    configured or [max_retries] is not positive, and at least once
    otherwise. *)
Theorem generate_response_bounded_remote_calls
    (c : Gemini.GeminiClient) (now : Q) (prompt : str) (max_retries : Z)
    (temperature : Q) :
  let calls :=
    Spec.remote_calls
      (Gemini.generate_response c now prompt max_retries temperature).2 in
  (calls <= Z.to_nat max_retries)%nat
  /\ (Gemini.model c = None -> calls = 0%nat)
  /\ (Gemini.model c <> None -> (0 < max_retries)%Z -> (1 <= calls)%nat).
Proof.
  intros calls. subst calls. unfold Gemini.generate_response.
  destruct (Gemini.model c) as [b|]; cbn [snd].
  - rewrite remote_calls_app, rate_gate_no_remote_call. cbn [Nat.add].
    destruct (attempt_loop_remote_calls b prompt temperature max_retries
                (Z.to_nat max_retries) 0) as [Hle Hge].
    split; [exact Hle|]. split; [discriminate|].
    intros _ Hpos. apply Hge. lia.
  - split; [apply Nat.le_0_l|]. split; [reflexivity | congruence].
Qed.

Lemma seconds_slept_app (a b : list Gemini.event) :
  (Spec.seconds_slept (a ++ b) == Spec.seconds_slept a + Spec.seconds_slept b)%Q.
Proof.
  unfold Spec.seconds_slept. induction a as [|e a IH]; cbn [app foldr].
  - symmetry. apply Qplus_0_l.
  - destruct e; try exact IH. rewrite IH. apply Qplus_assoc.
Qed.

Lemma backoff_budget_decreases (m a : Z) :
  (0 <= a)%Z ->
  (0 <= 2 ^ Z.max (m - 1) (a + 1) - 2 ^ (a + 1)
   <= 2 ^ Z.max (m - 1) a - 2 ^ a)%Z
  /\ ((a < m - 1)%Z ->
      (2 ^ a + (2 ^ Z.max (m - 1) (a + 1) - 2 ^ (a + 1))
       = 2 ^ Z.max (m - 1) a - 2 ^ a)%Z).
Proof.
  intros Ha.
  assert (2 ^ (a + 1) = 2 * 2 ^ a)%Z as Hsucc
    by (rewrite Z.pow_add_r, Z.pow_1_r by lia; lia).
  assert (0 < 2 ^ a)%Z as Hpos by (apply Z.pow_pos_nonneg; lia).
  destruct (Z.lt_ge_cases a (m - 1)) as [Hlt | Hge].
  - rewrite (Z.max_l (m - 1) (a + 1)), (Z.max_l (m - 1) a) by lia.
    assert (2 ^ (a + 1) <= 2 ^ (m - 1))%Z by (apply Z.pow_le_mono_r; lia).
    split; lia.
  - rewrite (Z.max_r (m - 1) (a + 1)), (Z.max_r (m - 1) a) by lia.
    split; lia.
Qed.

Lemma attempt_loop_backoff (b : Gemini.backend) (prompt : str) (temperature : Q)
    (max_retries : Z) (todo attempt : nat) :
  (Spec.seconds_slept
     (Gemini.attempt_loop b prompt temperature max_retries todo attempt).2
   <= inject_Z (2 ^ Z.max (max_retries - 1) (Z.of_nat attempt)
                - 2 ^ Z.of_nat attempt))%Q.
Proof.
  revert attempt; induction todo as [|todo IH]; intros attempt.
  - cbn. change 0%Q with (inject_Z 0). rewrite <- Zle_Qle.
    assert (2 ^ Z.of_nat attempt
            <= 2 ^ Z.max (max_retries - 1) (Z.of_nat attempt))%Z
      by (apply Z.pow_le_mono_r; lia).
    lia.
  - specialize (IH (S attempt)).
    destruct (backoff_budget_decreases max_retries (Z.of_nat attempt)
                ltac:(lia)) as [[Hnonneg Hmono] Hstep].
    replace (Z.of_nat attempt + 1)%Z with (Z.of_nat (S attempt)) in * by lia.
    set (budget := (2 ^ Z.max (max_retries - 1) (Z.of_nat attempt)
                    - 2 ^ Z.of_nat attempt)%Z) in *.
    set (budget' := (2 ^ Z.max (max_retries - 1) (Z.of_nat (S attempt))
                     - 2 ^ Z.of_nat (S attempt))%Z) in *.
    assert (inject_Z budget' <= inject_Z budget)%Q as Hq
      by (rewrite <- Zle_Qle; lia).
    assert (0 <= inject_Z budget)%Q as Hq0
      by (change 0%Q with (inject_Z 0); rewrite <- Zle_Qle; lia).
    cbn [Gemini.attempt_loop].
    set (rest := Gemini.attempt_loop b prompt temperature max_retries todo
                                     (S attempt)) in *.
    destruct (b prompt temperature attempt) as [text| |].
    + destruct (negb (is_empty text)); cbn [snd Spec.seconds_slept foldr].
      * exact Hq0.
      * change (foldr _ 0%Q rest.2) with (Spec.seconds_slept rest.2). lra.
    + cbn [snd Spec.seconds_slept foldr].
      change (foldr _ 0%Q rest.2) with (Spec.seconds_slept rest.2). lra.
    + destruct (Z.of_nat attempt <? max_retries - 1)%Z eqn:E;
        cbn [snd app Spec.seconds_slept foldr];
        change (foldr _ 0%Q rest.2) with (Spec.seconds_slept rest.2).
      * apply Z.ltb_lt in E. specialize (Hstep E). unfold of_int.
        assert (inject_Z budget
                == inject_Z (2 ^ Z.of_nat attempt) + inject_Z budget')%Q as Hb
          by (rewrite <- inject_Z_plus, Hstep; reflexivity).
        rewrite Hb. lra.
      * lra.
Qed.

(** X11. Backoff budget: the waits between the attempts of one call add up
    to at most [2^(max_retries-1) - 1] seconds (none for one attempt), on
    top of what the rate gate sleeps before the first attempt. *)
Theorem generate_response_backoff_budget
    (c : Gemini.GeminiClient) (now : Q) (prompt : str) (max_retries : Z)
    (temperature : Q) :
  (Spec.seconds_slept
     (Gemini.generate_response c now prompt max_retries temperature).2
   <= Spec.seconds_slept (Gemini._enforce_rate_limit c now).2
      + inject_Z (2 ^ Z.max (max_retries - 1) 0 - 1))%Q.
Proof.
  assert (0 <= inject_Z (2 ^ Z.max (max_retries - 1) 0 - 1))%Q as Hnonneg.
  { change 0%Q with (inject_Z 0). rewrite <- Zle_Qle.
    assert (2 ^ 0 <= 2 ^ Z.max (max_retries - 1) 0)%Z
      by (apply Z.pow_le_mono_r; lia).
    change (2 ^ 0)%Z with 1%Z in *. lia. }
  unfold Gemini.generate_response.
  destruct (Gemini.model c) as [b|] eqn:Hm; cbn [snd].
  - rewrite seconds_slept_app.
    pose proof (attempt_loop_backoff b prompt temperature max_retries
                  (Z.to_nat max_retries) 0) as H.
    change (Z.of_nat 0) with 0%Z in H. change (2 ^ 0)%Z with 1%Z in H. lra.
  - assert (0 <= Spec.seconds_slept (Gemini._enforce_rate_limit c now).2)%Q.
    { destruct (rate_gate_spaces_requests_core c now) as [-> | (d & -> & Hd)].
      - apply Qle_refl.
      - cbn. lra. }
    cbn. lra.
Qed.

Lemma attempt_loop_outcome (b : Gemini.backend) (prompt : str) (temperature : Q)
    (max_retries : Z) (todo attempt : nat) :
  match (Gemini.attempt_loop b prompt temperature max_retries todo attempt).1 with
  | None =>
    forall i, (attempt <= i < attempt + todo)%nat ->
              Spec.failed (b prompt temperature i) = true
  | Some s =>
    exists i text,
      (attempt <= i < attempt + todo)%nat
      /\ b prompt temperature i = Gemini.Reply text /\ text <> []
      /\ s = strip text
      /\ forall j, (attempt <= j < i)%nat ->
                   Spec.failed (b prompt temperature j) = true
  end.
Proof.
  revert attempt; induction todo as [|todo IH]; intros attempt.
  - cbn. intros i Hi. lia.
  - specialize (IH (S attempt)). cbn [Gemini.attempt_loop].
    set (rest := Gemini.attempt_loop b prompt temperature max_retries todo
                                     (S attempt)) in *.
    assert (Spec.failed (b prompt temperature attempt) = true ->
            match rest.1 with
            | None =>
              forall i, (attempt <= i < attempt + S todo)%nat ->
                        Spec.failed (b prompt temperature i) = true
            | Some s =>
              exists i text,
                (attempt <= i < attempt + S todo)%nat
                /\ b prompt temperature i = Gemini.Reply text /\ text <> []
                /\ s = strip text
                /\ forall j, (attempt <= j < i)%nat ->
                             Spec.failed (b prompt temperature j) = true
            end) as Hrest.
    { intros Hfail. destruct rest.1 as [s|].
      - destruct IH as (i & text & Hi & Hr & Ht & Hs & Hj).
        exists i, text. repeat split; try assumption; try lia.
        intros j Hrange. destruct (decide (j = attempt)) as [-> | Hne];
          [exact Hfail | apply Hj; lia].
      - intros i Hi. destruct (decide (i = attempt)) as [-> | Hne];
          [exact Hfail | apply IH; lia]. }
    destruct (b prompt temperature attempt) as [text| |] eqn:Hb.
    + destruct text as [|x text]; cbn [is_empty negb fst].
      * apply Hrest. reflexivity.
      * exists attempt, (x :: text).
        repeat split; try lia; try assumption; try discriminate;
          try (intros j Hj; lia).
    + cbn [fst]. apply Hrest. reflexivity.
    + cbn [fst]. apply Hrest. reflexivity.
Qed.

(** X12. With a model configured, [generate_response] ends in one of two
    ways: every one of the [max_retries] attempts failed and the result is
    the keyword fallback for the prompt, or the result is the trimmed text
    of the first attempt that yielded a non-empty text. *)
Theorem generate_response_outcomes
    (c : Gemini.GeminiClient) (b : Gemini.backend) (now : Q) (prompt : str)
    (max_retries : Z) (temperature : Q) :
  Gemini.model c = Some b ->
  let result :=
    (Gemini.generate_response c now prompt max_retries temperature).1.1 in
  (result = Gemini._fallback_response prompt
   /\ forall i, (i < Z.to_nat max_retries)%nat ->
                Spec.failed (b prompt temperature i) = true)
  \/ (exists i text,
         (i < Z.to_nat max_retries)%nat
         /\ b prompt temperature i = Gemini.Reply text /\ text <> []
         /\ result = strip text
         /\ forall j, (j < i)%nat -> Spec.failed (b prompt temperature j) = true).
Proof.
  intros Hm result. subst result. unfold Gemini.generate_response. rewrite Hm.
  cbn [fst].
  pose proof (attempt_loop_outcome b prompt temperature max_retries
                (Z.to_nat max_retries) 0) as H.
  destruct (Gemini.attempt_loop _ _ _ _ _ _).1 as [s|].
  - right. destruct H as (i & text & Hi & Hr & Ht & Hs & Hj).
    exists i, text. repeat split; try assumption; try lia.
    intros j Hlt. apply Hj. lia.
  - left. split; [reflexivity|]. intros i Hi. apply H. lia.
Qed.

Lemma generate_response_outcomes_witness :
  let b : Gemini.backend :=
    fun _ _ attempt =>
      match attempt with
      | 0%nat => Gemini.ApiError
      | _ => Gemini.Reply (u " I hear you. ")
      end in
  let c := {| Gemini.model := Some b; Gemini.last_request_time := 0;
              Gemini.min_request_interval := 1 |} in
  let result := (Gemini.generate_response c 5 (u "Hello") 3 (7 # 10)).1.1 in
  (result = Gemini._fallback_response (u "Hello")
   /\ forall i, (i < Z.to_nat 3)%nat ->
                Spec.failed (b (u "Hello") (7 # 10) i) = true)
  \/ (exists i text,
         (i < Z.to_nat 3)%nat
         /\ b (u "Hello") (7 # 10) i = Gemini.Reply text /\ text <> []
         /\ result = strip text
         /\ forall j, (j < i)%nat ->
                      Spec.failed (b (u "Hello") (7 # 10) j) = true).
Proof.
  intros b c result.
  apply (generate_response_outcomes c b 5 (u "Hello") 3 (7 # 10)).
  reflexivity.
Defined.

(** X13. The health check costs at most one call of the remote model and
    no backoff wait beyond the rate gate's sleep, and with no model
    configured it reports unavailable without any call or wait. *)
Theorem health_check_is_cheap (c : Gemini.GeminiClient) (now : Q) :
  let probe := Gemini.check_api_health c now in
  (Spec.remote_calls probe.2 <= 1)%nat
  /\ (Spec.seconds_slept probe.2
      <= Spec.seconds_slept (Gemini._enforce_rate_limit c now).2)%Q
  /\ (Gemini.model c = None ->
      probe = ({| Gemini.available := false;
                  Gemini.reason := u "Client not initialized" |}, None, [])).
Proof.
  intros probe. subst probe. unfold Gemini.check_api_health.
  destruct (Gemini.model c) as [b|] eqn:Hm; cbn [snd].
  - unfold Gemini.generate_response. rewrite Hm. cbn [snd].
    change (Z.to_nat 1) with 1%nat.
    split; [|split; [|discriminate]].
    + rewrite remote_calls_app, rate_gate_no_remote_call.
      apply (attempt_loop_remote_calls b (u "Hello") (7 # 10) 1 1 0).
    + rewrite seconds_slept_app.
      pose proof (attempt_loop_backoff b (u "Hello") (7 # 10) 1 1 0) as H.
      change (inject_Z _) with 0%Q in H. lra.
  - split; [apply Nat.le_0_l|]. split; [|reflexivity].
    destruct (rate_gate_spaces_requests_core c now) as [-> | (d & -> & Hd)].
    + apply Qle_refl.
    + cbn. lra.
Qed.

(** ** Response synthesizer: buckets, prompt, confidence, non-empty reply *)

Lemma dict_get_in {V : Type} (d : list (str * V)) (k : str) (v : V) :
  dict_get d k = Some v -> In v (map snd d).
Proof.
  induction d as [|[k' v'] d IH]; [discriminate|].
  cbn [dict_get map snd]. destruct (PyStr.eqb k' k).
  - intros [= ->]. left. reflexivity.
  - intros H. right. apply IH, H.
Qed.

Lemma primary_emotion_in_buckets (fused_emotion : str) :
  In (Synth._extract_primary_emotion fused_emotion) Spec.primary_emotions.
Proof.
  rewrite extract_primary_emotion_last.
  destruct (dict_get Synth.emotion_mapping _) as [v|] eqn:E.
  - apply dict_get_in in E. cbn [default from_option id].
    vm_compute in E. vm_compute.
    repeat destruct E as [<- | E]; tauto.
  - vm_compute. tauto.
Qed.

(** X14. The primary emotion is always one of the five buckets sadness,
    anger, fear, joy and neutral, and each bucket has its own list of three
    canned templates, so a template is never taken from another bucket's
    list by default. *)
Theorem primary_emotion_is_a_bucket_with_templates (fused_emotion : str) :
  In (Synth._extract_primary_emotion fused_emotion) Spec.primary_emotions
  /\ exists templates,
       dict_get Synth.response_templates
                (Synth._extract_primary_emotion fused_emotion) = Some templates
       /\ length templates = 3%nat.
Proof.
  pose proof (primary_emotion_in_buckets fused_emotion) as H.
  split; [exact H|].
  unfold Spec.primary_emotions in H. simpl in H.
  destruct H as [<-|[<-|[<-|[<-|[<-|[]]]]]]; eexists; split; reflexivity.
Qed.

Lemma keyword_bonus_needs_bare_label (emotion : str) :
  occurs_in (u "-") emotion -> dict_get Synth.emotion_keywords emotion = None.
Proof.
  intros Hocc. apply contains_occurs in Hocc.
  unfold Synth.emotion_keywords. cbn [dict_get].
  repeat match goal with
         | |- context [PyStr.eqb ?k emotion] =>
           destruct (PyStr.eqb k emotion) eqn:?E
         end; try reflexivity;
    match goal with
    | H : PyStr.eqb _ emotion = true |- _ =>
      apply eqb_eq in H; subst emotion; vm_compute in Hocc; discriminate Hocc
    end.
Qed.

(** X15. The response confidence stays below the cap of 1.0; and since
    the keyword list is looked up under the label the function is given, a
    label holding a hyphen gets no keyword bonus: its confidence is that of
    a label without a keyword list, whatever the response says. *)
Theorem response_confidence_no_bonus_for_hyphenated_labels (response emotion : str) :
  (Synth._calculate_response_confidence response emotion < 1)%Q
  /\ (occurs_in (u "-") emotion ->
      Synth._calculate_response_confidence response emotion
      = Synth._calculate_response_confidence response (u "neutral")).
Proof.
  split.
  - unfold Synth._calculate_response_confidence.
    destruct (50 <? len response)%Z; destruct (negb _ && _);
      vm_compute; reflexivity.
  - intros Hocc. unfold Synth._calculate_response_confidence.
    rewrite (keyword_bonus_needs_bare_label emotion Hocc). reflexivity.
Qed.

Lemma response_confidence_no_bonus_for_hyphenated_labels_witness :
  Synth._calculate_response_confidence
    (u "I can hear how sad and difficult this is, and I understand.")
    (u "negative-sadness")
  = Synth._calculate_response_confidence
      (u "I can hear how sad and difficult this is, and I understand.")
      (u "neutral").
Proof.
  refine (proj2 (response_confidence_no_bonus_for_hyphenated_labels
                   (u "I can hear how sad and difficult this is, and I understand.")
                   (u "negative-sadness")) _).
  exists (u "negative"), (u "sadness"). reflexivity.
Defined.

Example keyword_bonus_only_for_bare_label :
  let response := u "I can hear how sad and difficult this is, and I understand." in
  Synth._calculate_response_confidence response (u "sadness")
  <> Synth._calculate_response_confidence response (u "negative-sadness").
Proof. vm_compute. discriminate. Qed.

(** X16. Only the last three entries of the conversation history reach the
    prompt, and an empty history gives the prompt of no history. *)
Theorem prompt_uses_last_three_history_entries
    (user_text fused_emotion primary_emotion : str)
    (older recent : list Synth.history_item) :
  length recent = 3%nat ->
  Synth._build_prompt user_text fused_emotion primary_emotion
                      (Some (older ++ recent))
  = Synth._build_prompt user_text fused_emotion primary_emotion (Some recent)
  /\ Synth._build_prompt user_text fused_emotion primary_emotion (Some [])
     = Synth._build_prompt user_text fused_emotion primary_emotion None.
Proof.
  intros Hlen. split; [|reflexivity].
  unfold Synth._build_prompt.
  assert (last_n 3 (older ++ recent) = recent) as Hlast.
  { unfold last_n. rewrite length_app, Hlen.
    replace (length older + 3 - 3)%nat with (length older) by lia.
    apply drop_app_length. }
  assert (last_n 3 recent = recent) as Hlast'.
  { unfold last_n. rewrite Hlen. reflexivity. }
  destruct recent as [|r1 recent]; [discriminate|].
  destruct (older ++ r1 :: recent) as [|x l] eqn:E.
  { apply app_eq_nil in E. destruct E as [_ E]. discriminate E. }
  rewrite Hlast, Hlast'. reflexivity.
Qed.

Lemma prompt_uses_last_three_history_entries_witness :
  let h1 := Synth.HDict (Some (u "first")) (Some (u "one")) in
  let h := Synth.HDict (Some (u "hi")) (Some (u "hello")) in
  Synth._build_prompt (u "x") (u "neutral") (u "neutral") (Some ([h1; h1] ++ [h; h; h]))
  = Synth._build_prompt (u "x") (u "neutral") (u "neutral") (Some [h; h; h]).
Proof.
  intros h1 h.
  refine (proj1 (prompt_uses_last_three_history_entries
                   (u "x") (u "neutral") (u "neutral") [h1; h1] [h; h; h] _)).
  reflexivity.
Defined.

Example history_lines_are_numbered :
  Synth.history_lines 1 [ Synth.HDict (Some (u "hi")) (Some (u "hello"));
                          Synth.HOther;
                          Synth.HDict None (Some (u "ok")) ]
  = u "1. User: hi, AI: hello
3. User: , AI: ok
".
Proof. reflexivity. Qed.

Lemma lstrip_nil (s : str) :
  lstrip s = [] -> Forall (fun c => isspace c = true) s.
Proof.
  induction s as [|c s IH]; simpl; [constructor|].
  destruct (isspace c) eqn:E; [|discriminate].
  intros H. constructor; [exact E | apply IH, H].
Qed.

Lemma lstrip_head (s : str) (c : N) (t : str) :
  lstrip s = c :: t -> isspace c = false.
Proof.
  induction s as [|x s IH]; simpl; [discriminate|].
  destruct (isspace x) eqn:E; [exact IH|]. intros [= <- _]. exact E.
Qed.

Lemma strip_nil (s : str) :
  strip s = [] -> Forall (fun c => isspace c = true) s.
Proof.
  unfold strip, rstrip. intros H.
  apply (f_equal (@rev N)) in H. rewrite rev_involutive in H. cbn [rev] in H.
  apply lstrip_nil in H. apply Forall_rev in H. rewrite rev_involutive in H.
  destruct (lstrip s) as [|c t] eqn:E; [apply lstrip_nil, E|].
  apply lstrip_head in E. apply Forall_inv in H. congruence.
Qed.

Lemma templates_are_not_empty :
  forallb (fun templates => forallb (fun t => negb (is_empty t)) templates)
          [ Synth.templates_sadness; Synth.templates_anger; Synth.templates_fear;
            Synth.templates_joy; Synth.templates_neutral ] = true.
Proof. vm_compute. reflexivity. Qed.

Lemma template_response_not_empty (rnd : nat) (emotion user_text : str) :
  Synth._get_template_response rnd emotion user_text <> [].
Proof.
  pose proof templates_are_not_empty as H.
  rewrite forallb_forall in H.
  specialize (H _ (templates_cases emotion)).
  rewrite forallb_forall in H.
  specialize (H _ (get_template_response_in rnd emotion user_text)).
  intros E. rewrite E in H. discriminate H.
Qed.

Lemma validate_not_empty (rnd : nat) (response emotion user_text : str) :
  Synth._validate_and_enhance_response rnd response emotion user_text <> [].
Proof.
  unfold Synth._validate_and_enhance_response. rewrite is_empty_short.
  destruct (len (strip response) <? 10)%Z eqn:Hs;
    [apply template_response_not_empty|].
  destruct (any_in Synth.inappropriate_phrases (lower response));
    [apply template_response_not_empty|].
  destruct (200 <? len response)%Z.
  - intros H. apply strip_nil in H. apply Forall_app in H. destruct H as [_ H].
    apply Forall_inv in H. vm_compute in H. discriminate H.
  - intros H. rewrite H in Hs. vm_compute in Hs. discriminate Hs.
Qed.

(** X17. The synthesizer never hands out an empty response: neither when
    the generation call raises, nor for any text the call returns, nor
    through [craft_empathy_response] on the generation client. *)
Theorem synthesizer_response_never_empty
    (rnd : nat) (user_text fused_emotion : str)
    (history : option (list Synth.history_item)) :
  (forall ask : str -> Q -> outcome str,
      Synth.response
        (Synth.generate_response ask rnd user_text fused_emotion history) <> [])
  /\ (forall (c : Gemini.GeminiClient) (now : Q),
         Synth.craft_empathy_response c now rnd user_text fused_emotion history
         <> []).
Proof.
  assert (forall ask : str -> Q -> outcome str,
             Synth.response
               (Synth.generate_response ask rnd user_text fused_emotion history)
             <> []) as H.
  { intros ask. unfold Synth.generate_response.
    destruct (ask _ _) as [llm_response|].
    - cbn [Synth.response]. apply validate_not_empty.
    - unfold Synth._fallback_response. cbn [Synth.response].
      apply template_response_not_empty. }
  split; [exact H|]. intros c now. apply H.
Qed.

Example whitespace_reply_is_replaced :
  Synth.response
    (Synth.generate_response (fun _ _ => Returned (u "   ")) 2
                             (u "hello") (u "positive-joy") None)
  = List.nth 2 Synth.templates_joy [].
Proof. reflexivity. Qed.

Lemma sadness_prompt_names_sadness (fused_emotion : str) :
  exists rest,
    Synth.format_emotion Synth.prompt_sadness fused_emotion
    = u "You are EmpathyAI, speaking to someone feeling sad" ++ rest.
Proof.
  unfold Synth.format_emotion.
  let parts := eval vm_compute in (split (u "{emotion}") Synth.prompt_sadness) in
  change (split (u "{emotion}") Synth.prompt_sadness) with parts.
  cbn [join].
  match goal with
  | |- exists rest, ?pre ++ ?tail = ?head ++ rest =>
    exists (drop (length head) pre ++ tail)
  end.
  rewrite app_assoc. f_equal.
Qed.

Lemma sad_prompt_gets_sadness_reply (prompt : str) :
  occurs_in (u "sad") (lower prompt) ->
  Gemini._fallback_response prompt = Gemini.sadness_reply.
Proof.
  intros H. apply contains_occurs in H. unfold Gemini._fallback_response.
  assert (any_in Gemini.sadness_words (lower prompt) = true) as ->;
    [|reflexivity].
  unfold any_in, Gemini.sadness_words. cbn [existsb]. rewrite H. reflexivity.
Qed.

(** X18. With no model configured, the response of
    [craft_empathy_response] is the client's keyword fallback text for the
    prompt the synthesizer builds, unchanged by validation; and because the
    keyword match runs over the whole prompt, whose sadness instructions
    contain the word "sad", every label whose primary emotion is sadness
    gets the sadness message, whatever the user wrote. *)
Theorem unconfigured_response_is_client_fallback
    (c : Gemini.GeminiClient) (now : Q) (rnd : nat) (user_text fused_emotion : str)
    (history : option (list Synth.history_item)) :
  Gemini.model c = None ->
  let primary := Synth._extract_primary_emotion fused_emotion in
  let prompt := Synth._build_prompt user_text fused_emotion primary history in
  Synth.craft_empathy_response c now rnd user_text fused_emotion history
  = Gemini._fallback_response prompt
  /\ (primary = u "sadness" ->
      Synth.craft_empathy_response c now rnd user_text fused_emotion history
      = Gemini.sadness_reply).
Proof.
  intros Hm primary prompt.
  assert (Synth.craft_empathy_response c now rnd user_text fused_emotion history
          = Gemini._fallback_response prompt) as Hcraft.
  { unfold Synth.craft_empathy_response, Synth.generate_with_client,
      Synth.generate_response, Gemini.ask_gemini, Gemini.generate_response.
    rewrite Hm. cbn [fst Synth.response]. fold primary. fold prompt.
    apply validate_keeps_fallback_text. }
  split; [exact Hcraft|].
  intros Hsad. rewrite Hcraft. apply sad_prompt_gets_sadness_reply.
  subst prompt. unfold Synth._build_prompt. rewrite Hsad.
  change (dict_get Synth.system_prompts (u "sadness"))
    with (Some Synth.prompt_sadness).
  cbn [default from_option id].
  destruct (sadness_prompt_names_sadness fused_emotion) as [rest ->].
  rewrite <- !app_assoc. rewrite lower_app.
  exists (lower (u "You are EmpathyAI, speaking to someone feeling ")).
  eexists. rewrite app_assoc.
  change (u "You are EmpathyAI, speaking to someone feeling sad")
    with (u "You are EmpathyAI, speaking to someone feeling " ++ u "sad").
  rewrite lower_app. change (lower (u "sad")) with (u "sad").
  rewrite <- !app_assoc. reflexivity.
Qed.

Lemma unconfigured_response_is_client_fallback_witness :
  Synth.craft_empathy_response
    {| Gemini.model := None; Gemini.last_request_time := 0;
       Gemini.min_request_interval := 1 |}
    5 0 (u "We won the cup, I am so happy!") (u "negative-pessimism") None
  = Gemini.sadness_reply.
Proof.
  refine (proj2 (unconfigured_response_is_client_fallback
                   {| Gemini.model := None; Gemini.last_request_time := 0;
                      Gemini.min_request_interval := 1 |}
                   5 0 (u "We won the cup, I am so happy!")
                   (u "negative-pessimism") None _) _);
    reflexivity.
Defined.

(** ** Memory store: order, round trip, growth, analysis by label *)








Example recent_order :
  let ann := {| Memory.self_user_id := u "ann"; Memory.use_sheets := false |} in
  let row_of user time :=
    {| Memory.user_id := user; Memory.timestamp := time;
       Memory.emotion_label := u "positive-joy"; Memory.confidence := 4 # 5;
       Memory.message_text := None; Memory.response_text := None;
       Memory.session_id := None |} in
  let s := {| Memory.sqlite_rows := [ row_of (u "ann") (u "2024-05-01T08:00:00");
                                      row_of (u "bob") (u "2024-05-04T08:00:00");
                                      row_of (u "ann") (u "2024-05-03T08:00:00");
                                      row_of (u "ann") (u "2024-05-02T08:00:00") ];
              Memory.sheet_rows := [] |} in
  map Memory.r_timestamp (Memory.get_recent_emotions ann 2 s)
  = [u "2024-05-03T08:00:00"; u "2024-05-02T08:00:00"].
Proof. reflexivity. Qed.




(** X22. The store only grows under [add_emotion_record]: the rows that
    were there stay, in place and unchanged; the backend the manager does
    not use is left as it was; a call adds at most one row; and a call that
    returns [True] has added exactly one row to the manager's backend. *)
Theorem add_emotion_record_is_append_only
    (self : Memory.MemoryManager) (clk : Memory.clock) (ok : bool)
    (emotion_label : str) (confidence : option Q)
    (message response session_id : option str) (s : Memory.store) :
  let out := Memory.add_emotion_record self clk ok emotion_label confidence
                                       message response session_id s in
  Memory.sqlite_rows s `prefix_of` Memory.sqlite_rows out.2
  /\ Memory.sheet_rows s `prefix_of` Memory.sheet_rows out.2
  /\ (Memory.use_sheets self = true ->
      Memory.sqlite_rows out.2 = Memory.sqlite_rows s)
  /\ (Memory.use_sheets self = false ->
      Memory.sheet_rows out.2 = Memory.sheet_rows s)
  /\ (length (Memory.sqlite_rows out.2) + length (Memory.sheet_rows out.2)
      <= length (Memory.sqlite_rows s) + length (Memory.sheet_rows s) + 1)%nat
  /\ (out.1 = true ->
      length (Spec.backend_rows self out.2)
      = S (length (Spec.backend_rows self s))).
Proof.
  intros out. subst out.
  unfold Memory.add_emotion_record, Memory._add_to_sheets, Memory._add_to_sqlite,
    Spec.backend_rows.
  destruct (Memory.use_sheets self) eqn:E, ok;
    cbn [fst snd Memory.sqlite_rows Memory.sheet_rows Memory.use_sheets];
    rewrite ?E, ?length_app; cbn [length];
    repeat split; try reflexivity; try lia; try discriminate;
    try apply prefix_app_r; try reflexivity; intros; try congruence; try lia.
Qed.

Lemma count_record_same_label (acc : gmap str Memory.tally * Q)
    (record : Memory.emotion_record) :
  (Memory.count_record acc record).1 !! Memory.r_emotion record
  = Some {| Memory.count :=
              S (Memory.count
                   (default {| Memory.count := 0; Memory.total_confidence := 0 |}
                            (acc.1 !! Memory.r_emotion record)));
            Memory.total_confidence :=
              fadd (Memory.total_confidence
                      (default {| Memory.count := 0; Memory.total_confidence := 0 |}
                               (acc.1 !! Memory.r_emotion record)))
                   (Memory.r_confidence record) |}.
Proof.
  unfold Memory.count_record. cbn [fst]. rewrite lookup_insert_eq.
  destruct (acc.1 !! Memory.r_emotion record) as [d|] eqn:E.
  - rewrite E. reflexivity.
  - rewrite lookup_insert_eq. reflexivity.
Qed.

Lemma count_record_other_label (acc : gmap str Memory.tally * Q)
    (record : Memory.emotion_record) (label : str) :
  Memory.r_emotion record <> label ->
  (Memory.count_record acc record).1 !! label = acc.1 !! label.
Proof.
  intros Hne. unfold Memory.count_record. cbn [fst].
  rewrite lookup_insert_ne by exact Hne.
  destruct (acc.1 !! Memory.r_emotion record); [reflexivity|].
  rewrite lookup_insert_ne by exact Hne. reflexivity.
Qed.

Lemma count_record_total (acc : gmap str Memory.tally * Q)
    (record : Memory.emotion_record) :
  (Memory.count_record acc record).2 = fadd acc.2 (Memory.r_confidence record).
Proof. reflexivity. Qed.

(** The counting loop, label by label. *)
Lemma count_records_by_label (label : str) (records : list Memory.emotion_record) :
  forall acc : gmap str Memory.tally * Q,
    let matching := filter (fun o => Memory.r_emotion o = label) records in
    let start :=
      default {| Memory.count := 0; Memory.total_confidence := 0 |}
              (acc.1 !! label) in
    (foldl Memory.count_record acc records).1 !! label
    = match matching with
      | [] => acc.1 !! label
      | _ :: _ =>
        Some {| Memory.count := Memory.count start + length matching;
                Memory.total_confidence :=
                  foldl fadd (Memory.total_confidence start)
                        (map Memory.r_confidence matching) |}
      end.
Proof.
  induction records as [|o records IH]; intros acc; [reflexivity|].
  cbn [foldl]. rewrite filter_cons.
  specialize (IH (Memory.count_record acc o)). cbv zeta in IH. rewrite IH.
  destruct (decide (Memory.r_emotion o = label)) as [He | Hne].
  - subst label. rewrite count_record_same_label.
    cbn [default from_option id Memory.count Memory.total_confidence].
    destruct (filter _ records) as [|o' rest].
    + cbn [length map foldl]. rewrite Nat.add_1_r. reflexivity.
    + cbn [length map foldl].
      replace (S (Memory.count
                    (default {| Memory.count := 0; Memory.total_confidence := 0 |}
                             (acc.1 !! Memory.r_emotion o)))
               + S (length rest))%nat
        with (Memory.count
                (default {| Memory.count := 0; Memory.total_confidence := 0 |}
                         (acc.1 !! Memory.r_emotion o))
              + S (S (length rest)))%nat by lia.
      reflexivity.
  - rewrite (count_record_other_label acc o label Hne). reflexivity.
Qed.

Lemma count_records_total (records : list Memory.emotion_record) :
  forall acc : gmap str Memory.tally * Q,
    (foldl Memory.count_record acc records).2
    = foldl fadd acc.2 (map Memory.r_confidence records).
Proof.
  induction records as [|o records IH]; intros acc; [reflexivity|].
  cbn [foldl map]. rewrite IH, count_record_total. reflexivity.
Qed.

Lemma analyse_frequency_by_label (days : Z) (label : str)
    (records : list Memory.emotion_record) :
  Memory.frequency <$> (Memory.patterns (Memory.analyse days records) !! label)
  = match filter (fun o => Memory.r_emotion o = label) records with
    | [] => None
    | matching => Some (length matching)
    end.
Proof.
  unfold Memory.analyse. destruct records as [|o records]; [reflexivity|].
  cbn [Memory.patterns]. rewrite lookup_fmap.
  rewrite (count_records_by_label label (o :: records) (∅, 0%Q)).
  cbn [fst]. rewrite lookup_empty.
  destruct (filter _ (o :: records)) as [|o' rest]; reflexivity.
Qed.

Lemma analyse_total_entries (days : Z) (records : list Memory.emotion_record) :
  Memory.total_entries (Memory.analyse days records) = length records.
Proof. unfold Memory.analyse. destruct records; reflexivity. Qed.

Lemma recent_records_sqlite (self : Memory.MemoryManager) (cutoff : str)
    (s : Memory.store) (label : str) :
  Memory.use_sheets self = false ->
  length (filter (fun o => Memory.r_emotion o = label)
                 (Memory.recent_records self cutoff s))
  = length (filter (fun r => Memory.emotion_label r = label)
                   (filter (Spec.in_window self cutoff) (Memory.sqlite_rows s))).
Proof.
  intros Hq. unfold Memory.recent_records. rewrite Hq.
  rewrite filter_map_commute, length_map. cbn [Memory.r_emotion].
  apply Permutation_length. apply filter_Permutation. apply sorted_desc_perm.
Qed.

Lemma considered_length_sqlite (self : Memory.MemoryManager) (cutoff : str)
    (s : Memory.store) :
  Memory.use_sheets self = false ->
  length (Memory.recent_records self cutoff s)
  = length (filter (Spec.in_window self cutoff) (Memory.sqlite_rows s)).
Proof.
  intros Hq. unfold Memory.recent_records. rewrite Hq.
  rewrite length_map, (Permutation_length (sorted_desc_perm _ _ _)).
  reflexivity.
Qed.

(** X23. On the SQLite backend, for any window: [total_entries] is the
    number of the user's rows with timestamp at or after the cutoff, and
    the patterns hold a label exactly when one of these rows carries it,
    with the number of the rows that carry it as frequency. *)
Theorem patterns_count_rows_by_label
    (self : Memory.MemoryManager) (clk : Memory.clock) (days : Z)
    (s : Memory.store) (label : str) :
  Memory.use_sheets self = false ->
  let window :=
    filter (Spec.in_window self (Memory.days_ago_isoformat clk days))
           (Memory.sqlite_rows s) in
  let matching := filter (fun r => Memory.emotion_label r = label) window in
  let summary := Memory.get_emotion_patterns self clk days s in
  Memory.total_entries summary = length window
  /\ Memory.frequency <$> (Memory.patterns summary !! label)
     = (if decide (matching = []) then None else Some (length matching)).
Proof.
  intros Hq window matching summary. subst summary matching window.
  unfold Memory.get_emotion_patterns. split.
  - rewrite analyse_total_entries. apply considered_length_sqlite. exact Hq.
  - rewrite analyse_frequency_by_label.
    pose proof (recent_records_sqlite
                  self (Memory.days_ago_isoformat clk days) s label Hq) as Hlen.
    destruct (filter _ (Memory.recent_records _ _ _)) as [|o rest];
      destruct (filter _ (filter _ (Memory.sqlite_rows s))) as [|r rows];
      try discriminate Hlen.
    + destruct (decide _); [reflexivity | congruence].
    + destruct (decide _); [discriminate|]. rewrite Hlen. reflexivity.
Qed.

Lemma patterns_count_rows_by_label_witness :
  let ann := {| Memory.self_user_id := u "ann"; Memory.use_sheets := false |} in
  let clk := {| Memory.utcnow_isoformat := u "2024-05-03T09:30:00";
                Memory.days_ago_isoformat := fun _ => u "2024-04-26T09:30:00" |} in
  let row_of user time label :=
    {| Memory.user_id := user; Memory.timestamp := time;
       Memory.emotion_label := label; Memory.confidence := 4 # 5;
       Memory.message_text := None; Memory.response_text := None;
       Memory.session_id := None |} in
  let s := {| Memory.sqlite_rows :=
                [ row_of (u "ann") (u "2024-05-01T08:00:00") (u "positive-joy");
                  row_of (u "bob") (u "2024-05-01T09:00:00") (u "positive-joy");
                  row_of (u "ann") (u "2024-04-20T08:00:00") (u "positive-joy");
                  row_of (u "ann") (u "2024-05-02T08:00:00") (u "negative-fear");
                  row_of (u "ann") (u "2024-05-02T09:00:00") (u "positive-joy") ];
              Memory.sheet_rows := [] |} in
  Memory.total_entries (Memory.get_emotion_patterns ann clk 7 s) = 3%nat
  /\ Memory.frequency
       <$> (Memory.patterns (Memory.get_emotion_patterns ann clk 7 s)
            !! u "positive-joy")
     = Some 2%nat.
Proof.
  intros ann clk row_of s.
  apply (patterns_count_rows_by_label ann clk 7 s (u "positive-joy")).
  reflexivity.
Defined.

(** X24. On the SQLite backend a stored record shows in the analysis at
    once: after an accepted [add_emotion_record], [total_entries] of the
    same manager is one more than before when the insertion timestamp is at
    or after the cutoff, and as before otherwise. *)
Theorem stored_record_is_counted
    (self : Memory.MemoryManager) (clk : Memory.clock) (days : Z)
    (emotion_label : str) (confidence : option Q)
    (message response session_id : option str) (s : Memory.store) :
  Memory.use_sheets self = false ->
  let s' := (Memory.add_emotion_record self clk true emotion_label confidence
                                       message response session_id s).2 in
  Memory.total_entries (Memory.get_emotion_patterns self clk days s')
  = (Memory.total_entries (Memory.get_emotion_patterns self clk days s)
     + (if PyStr.geb (Memory.utcnow_isoformat clk)
                     (Memory.days_ago_isoformat clk days)
        then 1 else 0))%nat.
Proof.
  intros Hq s'. subst s'. unfold Memory.get_emotion_patterns.
  rewrite !analyse_total_entries.
  rewrite !considered_length_sqlite by exact Hq.
  unfold Memory.add_emotion_record, Memory._add_to_sqlite. rewrite Hq.
  cbn [snd Memory.sqlite_rows].
  rewrite filter_app, filter_cons, filter_nil, length_app.
  unfold Spec.in_window at 2.
  cbn [Memory.user_id Memory.timestamp].
  destruct (decide _) as [[_ Hts] | Hn].
  - rewrite Hts. reflexivity.
  - destruct (PyStr.geb _ _); [|cbn [length]; lia].
    exfalso. apply Hn. split; reflexivity.
Qed.

Lemma stored_record_is_counted_witness :
  let ann := {| Memory.self_user_id := u "ann"; Memory.use_sheets := false |} in
  let clk := {| Memory.utcnow_isoformat := u "2024-05-03T09:30:00";
                Memory.days_ago_isoformat := fun _ => u "2024-04-26T09:30:00" |} in
  let s := {| Memory.sqlite_rows := []; Memory.sheet_rows := [] |} in
  Memory.total_entries
    (Memory.get_emotion_patterns ann clk 7
       (Memory.add_emotion_record ann clk true (u "positive-joy") (Some (9 # 10))
                                  None None None s).2)
  = 1%nat.
Proof.
  intros ann clk s.
  apply (stored_record_is_counted ann clk 7 (u "positive-joy") (Some (9 # 10))
           None None None s).
  reflexivity.
Defined.
